(** * cos_util: the COS uploader and lister, embedded and verified

    A shallow embedding of [upload_to_cos.py] and [list_cos_objects.py].
    Both scripts are short sequential programs around the Tencent COS SDK.
    The embedding keeps their control flow and turns every interaction with
    the outside (file system, environment, [mimetypes], SDK client, console)
    into either a field of a [World] record (what the outside answers) or an
    [Event] appended to a trace (what the program called, in order).

    Python [str] values are Rocq strings; a character stands for the code
    point of the same number, so the embedding covers text whose code points
    are below 256.  The check mark printed by the scripts lies outside that
    range and is carried as the bytes the source file holds for it; it only
    occurs in printed literals.  Whether standard output can encode such a
    literal is a matter of the world: the lines that hold one are printed
    with [print_literal], which may raise. *)

From Stdlib Require Import ZArith Lia List Ascii String DecimalString.
From stdpp Require Import base option list strings gmap.

Local Open Scope string_scope.
Local Open Scope Z_scope.

(** ** Python strings *)

Module PyStr.

(** [str.isspace] on one character, for code points below 256:
    U+0009..U+000D, U+001C..U+001F, U+0020, U+0085 and U+00A0. *)
Definition isspace (c : ascii) : bool :=
  let n := N_of_ascii c in
  ((9 <=? n) && (n <=? 13) || (28 <=? n) && (n <=? 32)
   || (n =? 133) || (n =? 160))%N.

(** [s.lstrip()] *)
Fixpoint lstrip (s : string) : string :=
  match s with
  | EmptyString => EmptyString
  | String c s' => if isspace c then lstrip s' else s
  end.

(** [s.rstrip()] *)
Fixpoint rstrip (s : string) : string :=
  match s with
  | EmptyString => EmptyString
  | String c s' =>
      match rstrip s' with
      | EmptyString => if isspace c then EmptyString else String c EmptyString
      | r => String c r
      end
  end.

(** [s.strip()]: leading and trailing whitespace removed. *)
Definition strip (s : string) : string := rstrip (lstrip s).

(** Every character of [s] is whitespace (true of the empty string). *)
Fixpoint all_space (s : string) : bool :=
  match s with
  | EmptyString => true
  | String c s' => isspace c && all_space s'
  end.

(** Truth value of a string: [bool(s)]. *)
Definition truthy (s : string) : bool :=
  match s with
  | EmptyString => false
  | String _ _ => true
  end.

(** Truth value of an [Optional[str]]: [None] and the empty string are false. *)
Definition truthy_opt (o : option string) : bool :=
  match o with
  | None => false
  | Some s => truthy s
  end.

(** [o or d] for [o : Optional[str]] and [d : str]. *)
Definition or_else (o : option string) (d : string) : string :=
  match o with
  | Some s => if truthy s then s else d
  | None => d
  end.

(** [sep.join(l)] *)
Definition join (sep : string) (l : list string) : string :=
  String.concat sep l.

(** [s * n] *)
Fixpoint repeat (s : string) (n : nat) : string :=
  match n with
  | O => EmptyString
  | S n' => s ++ repeat s n'
  end.

(** [s[:n]] for [n >= 0] *)
Definition take (n : nat) (s : string) : string := String.substring 0 n s.

(** [str(n)] for a length. *)
Definition of_nat (n : nat) : string :=
  NilZero.string_of_uint (Nat.to_uint n).

(** [f"{o}"] for an [Optional[str]]. *)
Definition fmt_opt (o : option string) : string :=
  match o with
  | Some s => s
  | None => "None"
  end.

(** The double quote character, as a string. *)
Definition dquote : string := String (ascii_of_nat 34) EmptyString.

(** The check mark of [list_cos_objects.py], U+2713, as stored in the file. *)
Definition check_mark : string :=
  String (ascii_of_nat 226) (String (ascii_of_nat 156)
    (String (ascii_of_nat 147) EmptyString)).

(** The ballot cross of [list_cos_objects.py], U+2717, as stored in the file. *)
Definition cross_mark : string :=
  String (ascii_of_nat 226) (String (ascii_of_nat 156)
    (String (ascii_of_nat 151) EmptyString)).

(** The three characters [upload_to_cos.py] holds in front of
    " Upload complete" (U+00E2 U+0153 U+201C), as stored in the file. *)
Definition upload_mark : string :=
  String (ascii_of_nat 195) (String (ascii_of_nat 162)
    (String (ascii_of_nat 197) (String (ascii_of_nat 147)
      (String (ascii_of_nat 226) (String (ascii_of_nat 128)
        (String (ascii_of_nat 156) EmptyString)))))).

End PyStr.

(** ** Exceptions and results *)

(** The exception classes the two scripts tell apart.  [FileNotFoundError]
    and [Exception] (any other subclass of [Exception], [UnicodeEncodeError]
    among them) are caught by [main] and carry their [str()].  The others
    are [BaseException]s that [except Exception] lets through:
    [KeyboardInterrupt], [SystemExit] raised with a message, and
    [SystemExit] raised with an integer code. *)
Inductive exn : Type :=
| FileNotFoundError (msg : string)
| Exception (msg : string)
| SystemExit (msg : string)
| SystemExitCode (code : Z)
| KeyboardInterrupt.

Definition exn_str (e : exn) : string :=
  match e with
  | FileNotFoundError m | Exception m | SystemExit m => m
  | SystemExitCode _ | KeyboardInterrupt => EmptyString
  end.

(** [isinstance(e, Exception)] *)
Definition is_Exception (e : exn) : bool :=
  match e with
  | FileNotFoundError _ | Exception _ => true
  | SystemExit _ | SystemExitCode _ | KeyboardInterrupt => false
  end.

Inductive result (A : Type) : Type :=
| Ok (a : A)
| Raise (e : exn).
Arguments Ok {A} a.
Arguments Raise {A} e.

(** ** The SDK and the outside world *)

(** [CosConfig(Region=, SecretId=, SecretKey=, Token=)] *)
Record CosConfig : Type := {
  Region : string;
  SecretId : string;
  SecretKey : string;
  Token : option string
}.

(** Keyword arguments of [client.put_object], the entries of [extra]; [Body] is the open
    file object, named by its path. *)
Record PutObjectArgs : Type := {
  po_Bucket : string;
  po_Key : string;
  po_Body : string;
  po_StorageClass : string;
  po_ContentType : string;
  po_ACL : option string
}.

(** Keyword arguments of [client.upload_file(...)]. *)
Record UploadFileArgs : Type := {
  uf_Bucket : string;
  uf_LocalFilePath : string;
  uf_Key : string;
  uf_PartSize : Z;
  uf_MAXThread : Z;
  uf_EnableMD5 : bool
}.

(** Keyword arguments of [client.list_objects(...)]. *)
Record ListObjectsArgs : Type := {
  lo_Bucket : string;
  lo_Prefix : string;
  lo_Delimiter : string;
  lo_MaxKeys : Z
}.

(** The response of [list_objects]: a dict of which the scripts read the
    entry under ['Contents'], a list of dicts, when it is present. *)
Record ListResponse : Type := {
  Contents : option (list (gmap string string))
}.

(** What a [CosS3Client] answers to each call. *)
Record CosS3Client : Type := {
  list_objects : ListObjectsArgs -> result ListResponse;
  put_object : PutObjectArgs -> result unit;
  upload_file : UploadFileArgs -> result unit
}.

(** Everything the scripts read from outside. *)
Record World : Type := {
  (** [os.environ] *)
  environ : gmap string string;
  (** [os.path.isfile] *)
  isfile : string -> bool;
  (** [os.path.getsize] *)
  getsize : string -> result Z;
  (** [os.path.basename] and [os.path.abspath] of the platform *)
  basename : string -> string;
  abspath : string -> string;
  (** first component of [mimetypes.guess_type] *)
  guess_type : string -> option string;
  (** [open(path, "rb")]: [None] when the file opens, else what is raised *)
  open_rb : string -> option exn;
  (** [CosS3Client(CosConfig(...))], which may raise *)
  sdk_client : CosConfig -> result CosS3Client;
  (** what [sys.stdout] answers to a line that holds one of the scripts'
      non-ASCII literals: [None] when its encoding has the characters, else
      the [str()] of the [UnicodeEncodeError] that [print] raises *)
  stdout_encode_error : string -> option string
}.

(** Calls made by a run, in the order they are made.  A call is recorded
    when it is made, whether or not it raises; a line is recorded when it
    is printed. *)
Inductive Event : Type :=
| EvPrint (line : string)
| EvCreateClient (cfg : CosConfig)
| EvOpen (path : string)
| EvClose (path : string)
| EvListObjects (args : ListObjectsArgs)
| EvPutObject (args : PutObjectArgs)
| EvUploadFile (args : UploadFileArgs).

(** ** The program monad: a trace, the open file handles, and exceptions *)

Record State : Type := {
  trace : list Event;
  handles : list string
}.

Definition initial_state : State := {| trace := []; handles := [] |}.

Definition M (A : Type) : Type := State -> result A * State.

Module Prog.

Definition ret {A} (a : A) : M A := fun s => (Ok a, s).

Definition bind {A B} (m : M A) (k : A -> M B) : M B :=
  fun s =>
    match m s with
    | (Ok a, s') => k a s'
    | (Raise e, s') => (Raise e, s')
    end.

Definition raise {A} (e : exn) : M A := fun s => (Raise e, s).

Definition lift {A} (r : result A) : M A := fun s => (r, s).

Definition emit (ev : Event) : M unit :=
  fun s => (Ok tt, {| trace := trace s ++ [ev]; handles := handles s |}).

(** [print(line)] for a line of ASCII literals and of the caller's own
    text, which the console is taken to show. *)
Definition print (line : string) : M unit := emit (EvPrint line).

(** [print(line)] for a line that holds a non-ASCII literal of the script:
    when standard output cannot encode it, [UnicodeEncodeError] (an
    [Exception]) is raised and nothing is printed. *)
Definition print_literal (w : World) (line : string) : M unit :=
  match stdout_encode_error w line with
  | None => emit (EvPrint line)
  | Some msg => raise (Exception msg)
  end.

(** [try: body except <classes accepted by handles>: handler]; the
    clauses of the source are tried in order inside [handler]. *)
Definition try_except {A} (body : M A) (handler : exn -> option (M A)) : M A :=
  fun s =>
    match body s with
    | (Ok a, s') => (Ok a, s')
    | (Raise e, s') =>
        match handler e with
        | Some h => h s'
        | None => (Raise e, s')
        end
    end.

(** Removes one occurrence of a handle. *)
Fixpoint release (path : string) (hs : list string) : list string :=
  match hs with
  | [] => []
  | h :: hs' => if String.eqb h path then hs' else h :: release path hs'
  end.

(** [with open(path, "rb") as fp: body fp].  When [open] raises nothing is
    acquired; otherwise the handle is closed when [body] is left, by
    return or by exception. *)
Definition with_open (w : World) {A} (path : string) (body : string -> M A) : M A :=
  fun s =>
    let s0 := {| trace := trace s ++ [EvOpen path]; handles := handles s |} in
    match open_rb w path with
    | Some e => (Raise e, s0)
    | None =>
        let s1 := {| trace := trace s0; handles := path :: handles s0 |} in
        let '(r, s2) := body path s1 in
        (r, {| trace := trace s2 ++ [EvClose path];
               handles := release path (handles s2) |})
    end.

End Prog.

Import Prog.

(** The programs below are written with stdpp's monad notations
    [x ← m; k] and [m;; k]. *)
#[global] Instance M_ret : MRet M := @ret.
#[global] Instance M_bind : MBind M := fun A B k m => bind m k.

(** ** upload_to_cos.py *)

Module Uploader.

Import PyStr.

Definition create_client (w : World) (region secret_id secret_key : string)
    (token : option string) : M CosS3Client :=
  let config := {| Region := region; SecretId := secret_id;
                   SecretKey := secret_key; Token := token |} in
  emit (EvCreateClient config);;
  lift (sdk_client w config).

Definition SMALL_FILE_THRESHOLD : Z := 5 * 1024 * 1024.

(** The key after [if key is None or not key.strip(): key = basename]. *)
Definition resolved_key (w : World) (local_path : string)
    (key : option string) : string :=
  match key with
  | None => basename w local_path
  | Some k => if negb (truthy (strip k)) then basename w local_path else k
  end.

(** The content type after
    [if content_type is None: content_type = guessed_type or ...]. *)
Definition resolved_content_type (w : World) (local_path : string)
    (content_type : option string) : string :=
  let guessed_type := guess_type w local_path in
  match content_type with
  | None => or_else guessed_type "application/octet-stream"
  | Some ct => ct
  end.

Definition upload_file_to_cos (w : World)
    (bucket_name region secret_id secret_key local_path : string)
    (key : option string) (storage_class : string)
    (content_type : option string) (part_size_mb max_threads : Z)
    (enable_md5 : bool) (acl token : option string) : M string :=
  if negb (isfile w local_path) then
    raise (FileNotFoundError ("Local file not found: " ++ local_path))
  else
    let key := resolved_key w local_path key in
    let content_type := resolved_content_type w local_path content_type in
    client ← create_client w region secret_id secret_key token;
    file_size_bytes ← lift (getsize w local_path);
    (if file_size_bytes <=? SMALL_FILE_THRESHOLD then
       with_open w local_path (fun fp =>
         let extra := {| po_Bucket := bucket_name;
                         po_Key := key;
                         po_Body := fp;
                         po_StorageClass := storage_class;
                         po_ContentType := content_type;
                         po_ACL := if truthy_opt acl then acl else None |} in
         emit (EvPutObject extra);;
         lift (put_object client extra))
     else
       let args := {| uf_Bucket := bucket_name;
                      uf_LocalFilePath := local_path;
                      uf_Key := key;
                      uf_PartSize := Z.max 1 part_size_mb;
                      uf_MAXThread := Z.max 1 max_threads;
                      uf_EnableMD5 := enable_md5 |} in
       emit (EvUploadFile args);;
       lift (upload_file client args));;
    mret key.

(** What the command line gives: the positional argument, and for each
    option its value when the option is present.  Malformed command lines
    (no positional, a non-integer [--part-size]) are rejected by [argparse]
    itself and are not values of this type. *)
Record CommandLine : Type := {
  cl_local_path : string;
  cl_key : option string;
  cl_bucket : option string;
  cl_region : option string;
  cl_secret_id : option string;
  cl_secret_key : option string;
  cl_token : option string;
  cl_storage_class : option string;
  cl_content_type : option string;
  cl_part_size : option Z;
  cl_threads : option Z;
  cl_md5 : bool;
  cl_acl : option string;
  cl_dry_run : bool
}.

(** The [argparse.Namespace] of [parse_args]. *)
Record Namespace : Type := {
  args_local_path : string;
  args_key : option string;
  args_bucket : option string;
  args_region : option string;
  args_secret_id : option string;
  args_secret_key : option string;
  args_token : option string;
  args_storage_class : string;
  args_content_type : option string;
  args_part_size : Z;
  args_threads : Z;
  args_md5 : bool;
  args_acl : option string;
  args_dry_run : bool
}.

(** [add_argument(..., default=d)]: the option's value, else [d]. *)
Definition with_default {A} (flag : option A) (d : A) : A :=
  match flag with
  | Some v => v
  | None => d
  end.

(** [add_argument(..., default=os.getenv(name))] *)
Definition with_getenv (w : World) (flag : option string) (name : string)
    : option string :=
  match flag with
  | Some v => Some v
  | None => environ w !! name
  end.

(** [parser.parse_args(argv)] for the parser built in [parse_args]. *)
Definition parser_parse_args (w : World) (cl : CommandLine) : Namespace :=
  {| args_local_path := cl_local_path cl;
     args_key := cl_key cl;
     args_bucket := with_getenv w (cl_bucket cl) "COS_BUCKET_NAME";
     args_region := with_getenv w (cl_region cl) "COS_REGION";
     args_secret_id := with_getenv w (cl_secret_id cl) "COS_SECRET_ID";
     args_secret_key := with_getenv w (cl_secret_key cl) "COS_SECRET_KEY";
     args_token := with_getenv w (cl_token cl) "COS_TOKEN";
     args_storage_class := with_default (cl_storage_class cl) "STANDARD";
     args_content_type := cl_content_type cl;
     args_part_size := with_default (cl_part_size cl) 8;
     args_threads := with_default (cl_threads cl) 5;
     args_md5 := cl_md5 cl;
     args_acl := cl_acl cl;
     args_dry_run := cl_dry_run cl |}.

(** The list [missing] built by the four [if not args.x] tests. *)
Definition missing_fields (args : Namespace) : list string :=
  let missing := [] in
  let missing := if negb (truthy_opt (args_bucket args))
                 then (missing ++ ["--bucket or COS_BUCKET_NAME"])%list else missing in
  let missing := if negb (truthy_opt (args_region args))
                 then (missing ++ ["--region or COS_REGION"])%list else missing in
  let missing := if negb (truthy_opt (args_secret_id args))
                 then (missing ++ ["--secret-id or COS_SECRET_ID"])%list else missing in
  let missing := if negb (truthy_opt (args_secret_key args))
                 then (missing ++ ["--secret-key or COS_SECRET_KEY"])%list else missing in
  missing.

Definition parse_args (w : World) (cl : CommandLine) : M Namespace :=
  let args := parser_parse_args w cl in
  let missing := missing_fields args in
  match missing with
  | _ :: _ =>
      raise (SystemExit ("Missing required configuration: " ++ join ", " missing))
  | [] => mret args
  end.

(** A configuration field passed on as a [str]; [parse_args] returns only
    when the four required fields are non-empty strings
    (see [parse_args_required]). *)
Definition the_str (o : option string) : string :=
  match o with
  | Some s => s
  | None => EmptyString
  end.

(** [args.key or os.path.basename(args.local_path)], the key [main]
    prints. *)
Definition planned_key (w : World) (local_path : string)
    (key : option string) : string :=
  or_else key (basename w local_path).

(** The line printed after a successful upload. *)
Definition complete_line : string := upload_mark ++ " Upload complete".

Definition main (w : World) (cl : CommandLine) : M Z :=
  args ← parse_args w cl;
  if args_dry_run args then
    let planned_key := planned_key w (args_local_path args) (args_key args) in
    print "Dry run: would upload";;
    print ("  Local: " ++ abspath w (args_local_path args));;
    print ("  Bucket: " ++ fmt_opt (args_bucket args));;
    print ("  Region: " ++ fmt_opt (args_region args));;
    print ("  Key: " ++ planned_key);;
    mret 0
  else
    print "Tencent COS Upload";;
    print (repeat "=" 40);;
    print ("Bucket: " ++ fmt_opt (args_bucket args));;
    print ("Region: " ++ fmt_opt (args_region args));;
    print ("Key: " ++ planned_key w (args_local_path args) (args_key args));;
    print EmptyString;;
    try_except
      (obj_key ← upload_file_to_cos w
                   (the_str (args_bucket args))
                   (the_str (args_region args))
                   (the_str (args_secret_id args))
                   (the_str (args_secret_key args))
                   (args_local_path args)
                   (args_key args)
                   (args_storage_class args)
                   (args_content_type args)
                   (args_part_size args)
                   (args_threads args)
                   (args_md5 args)
                   (args_acl args)
                   (args_token args);
       print_literal w complete_line;;
       print ("Object Key: " ++ obj_key);;
       mret 0)
      (fun e =>
         match e with
         | FileNotFoundError _ => Some (print ("Error: " ++ exn_str e);; mret 2)
         | Exception _ => Some (print ("Upload failed: " ++ exn_str e);; mret 1)
         | SystemExit _ | SystemExitCode _ | KeyboardInterrupt => None
         end).

End Uploader.

(** ** list_cos_objects.py *)

Module Lister.

Import PyStr.

(** [for obj in response['Contents']: objects.append(obj['Key'])]; a dict
    without the entry raises [KeyError('Key')]. *)
Fixpoint collect_keys (contents : list (gmap string string))
    (objects : list string) : result (list string) :=
  match contents with
  | [] => Ok objects
  | obj :: rest =>
      match obj !! "Key" with
      | Some k => collect_keys rest (objects ++ [k])%list
      | None => Raise (Exception "'Key'")
      end
  end.

(** Returns [Some objects] for the list of keys, [None] for Python's
    [None]. *)
Definition list_cos_objects (w : World)
    (bucket_name region secret_id secret_key prefix : string)
    : M (option (list string)) :=
  try_except
    (let config := {| Region := region; SecretId := secret_id;
                      SecretKey := secret_key; Token := None |} in
     emit (EvCreateClient config);;
     client ← lift (sdk_client w config);
     let request := {| lo_Bucket := bucket_name;
                       lo_Prefix := prefix;
                       lo_Delimiter := EmptyString;
                       lo_MaxKeys := 1000 |} in
     emit (EvListObjects request);;
     response ← lift (list_objects client request);
     let objects := [] in
     objects ← lift (match Contents response with
                     | Some contents => collect_keys contents objects
                     | None => Ok objects
                     end);
     mret (Some objects))
    (fun e =>
       if is_Exception e
       then Some (print ("Error listing COS objects: " ++ exn_str e);;
                  mret None)
       else None).

(** [os.getenv(name, fallback)] *)
Definition getenv (w : World) (name fallback : string) : string :=
  default fallback (environ w !! name).

(** [for obj in objs: print(f"  - {obj}")] *)
Fixpoint print_objects (objs : list string) : M unit :=
  match objs with
  | [] => mret tt
  | obj :: rest => print ("  - " ++ obj);; print_objects rest
  end.

(** The lines of [main] that hold a check mark or a cross. *)
Definition found_line (objects : list string) : string :=
  check_mark ++ " Configuration is correct! Found "
  ++ of_nat (length objects) ++ " object(s):".

Definition empty_line : string :=
  check_mark ++ " Configuration is correct! Bucket is accessible but empty in root directory.".

Definition success_line : string :=
  check_mark ++ " SUCCESS: Tencent COS configuration is working correctly!".

Definition failed_line : string :=
  cross_mark ++ " FAILED: Unable to access COS bucket. Please check your configuration.".

Section Main.

(** The fallback literals of [COS_SECRET_ID] and [COS_SECRET_KEY] are
    credentials; they are left out of this development, which holds for
    any value in their place. *)
Variables DEFAULT_SECRET_ID DEFAULT_SECRET_KEY : string.

Definition main (w : World) : M Z :=
  let bucket_name :=
    getenv w "COS_BUCKET_NAME"
      "property-property-cos-website-one-property-1359404038" in
  let region := getenv w "COS_REGION" "ap-singapore" in
  let secret_id := getenv w "COS_SECRET_ID" DEFAULT_SECRET_ID in
  let secret_key := getenv w "COS_SECRET_KEY" DEFAULT_SECRET_KEY in
  print "Tencent COS Configuration Test";;
  print (repeat "=" 40);;
  print ("Bucket: " ++ bucket_name);;
  print ("Region: " ++ region);;
  print ("Secret ID: " ++ take 8 secret_id ++ "...");;
  print EmptyString;;
  print ("Listing objects in root directory (" ++ dquote ++ "/" ++ dquote
         ++ ")...");;
  print (repeat "-" 40);;
  objects ← list_cos_objects w bucket_name region secret_id secret_key
              EmptyString;
  match objects with
  | Some objects =>
      (match objects with
       | _ :: _ =>
           print_literal w (found_line objects);;
           print_objects (List.firstn 10 objects);;
           (if (10 <? length objects)%nat
            then print ("  ... and " ++ of_nat (length objects - 10)
                        ++ " more objects")
            else mret tt)
       | [] =>
           print_literal w empty_line
       end);;
      print EmptyString;;
      print_literal w success_line;;
      mret 0
  | None =>
      print_literal w failed_line;;
      mret 1
  end.

End Main.

End Lister.

(** [sys.exit(main())] run from a fresh process: the exit status and the
    calls made.  When [main] returns, its value is the status.  When an
    exception leaves [main]: [SystemExit] with an integer code ends the
    process with that code; [SystemExit] with a message, and any uncaught
    [Exception], end it with status 1; an uncaught [KeyboardInterrupt] ends
    it by [SIGINT], which a POSIX shell reports as status 130. *)
Definition exit_status (r : result Z) : Z :=
  match r with
  | Ok n => n
  | Raise (SystemExitCode code) => code
  | Raise KeyboardInterrupt => 130
  | Raise (FileNotFoundError _ | Exception _ | SystemExit _) => 1
  end.

Definition run_process (main : M Z) : Z * list Event :=
let '(r, s) := main initial_state in (exit_status r, trace s).

(** ** Reading a trace *)

Module Trace.

(** The arguments of the [put_object] calls of a trace, in order. *)
Fixpoint put_calls (tr : list Event) : list PutObjectArgs :=
  match tr with
  | [] => []
  | EvPutObject a :: tr' => a :: put_calls tr'
  | _ :: tr' => put_calls tr'
  end.

(** The arguments of the [upload_file] calls of a trace, in order. *)
Fixpoint upload_calls (tr : list Event) : list UploadFileArgs :=
  match tr with
  | [] => []
  | EvUploadFile a :: tr' => a :: upload_calls tr'
  | _ :: tr' => upload_calls tr'
  end.

(** A call into the SDK: building a client or calling one. *)
Definition is_sdk_call (ev : Event) : bool :=
  match ev with
  | EvCreateClient _ | EvListObjects _ | EvPutObject _ | EvUploadFile _ => true
  | EvPrint _ | EvOpen _ | EvClose _ => false
  end.

Definition sdk_calls (tr : list Event) : list Event :=
  List.filter is_sdk_call tr.

(** The lines printed, in order. *)
Fixpoint printed (tr : list Event) : list string :=
  match tr with
  | [] => []
  | EvPrint l :: tr' => l :: printed tr'
  | _ :: tr' => printed tr'
  end.

End Trace.

(** ** The behaviour the specification words describe *)

Module Spec.

Inductive Strategy : Type := Direct | Multipart.

(** Strategy = Direct when sizeBytes is at most 5 MiB, else Multipart. *)
Definition strategy_of_size (size_bytes : Z) : Strategy :=
  if size_bytes <=? 5 * 1024 * 1024 then Direct else Multipart.

(** The strategy a trace shows: which of the two upload operations the
    run called first, if any. *)
Fixpoint strategy_called (tr : list Event) : option Strategy :=
  match tr with
  | [] => None
  | EvPutObject _ :: _ => Some Direct
  | EvUploadFile _ :: _ => Some Multipart
  | _ :: tr' => strategy_called tr'
  end.

(** Key: the explicit key, or the base name when no key is given or the
    key is blank (empty or whitespace only). *)
Definition key_of (explicit_key : option string) (base_name : string) : string :=
  match explicit_key with
  | None => base_name
  | Some k => if PyStr.all_space k then base_name else k
  end.

(** Content type: explicit override, else the type inferred from the
    extension, else the fixed fallback. *)
Definition content_type_of (override inferred : option string) : string :=
  match override with
  | Some ct => ct
  | None =>
      match inferred with
      | Some t => t
      | None => "application/octet-stream"
      end
  end.

(** The four required configuration fields. *)
Inductive Required : Type := ReqBucket | ReqRegion | ReqSecretId | ReqSecretKey.

Definition all_required : list Required :=
  [ReqBucket; ReqRegion; ReqSecretId; ReqSecretKey].

Definition flag_of (cl : Uploader.CommandLine) (f : Required) : option string :=
  match f with
  | ReqBucket => Uploader.cl_bucket cl
  | ReqRegion => Uploader.cl_region cl
  | ReqSecretId => Uploader.cl_secret_id cl
  | ReqSecretKey => Uploader.cl_secret_key cl
  end.

Definition env_name (f : Required) : string :=
  match f with
  | ReqBucket => "COS_BUCKET_NAME"
  | ReqRegion => "COS_REGION"
  | ReqSecretId => "COS_SECRET_ID"
  | ReqSecretKey => "COS_SECRET_KEY"
  end.

Definition field_of (args : Uploader.Namespace) (f : Required) : option string :=
  match f with
  | ReqBucket => Uploader.args_bucket args
  | ReqRegion => Uploader.args_region args
  | ReqSecretId => Uploader.args_secret_id args
  | ReqSecretKey => Uploader.args_secret_key args
  end.

(** How the failure message names a field. *)
Definition label (f : Required) : string :=
  match f with
  | ReqBucket => "--bucket or COS_BUCKET_NAME"
  | ReqRegion => "--region or COS_REGION"
  | ReqSecretId => "--secret-id or COS_SECRET_ID"
  | ReqSecretKey => "--secret-key or COS_SECRET_KEY"
  end.

(** A field is absent when neither its flag nor its environment variable
    is given. *)
Definition absent (w : World) (cl : Uploader.CommandLine) (f : Required) : bool :=
  match flag_of cl f, environ w !! env_name f with
  | None, None => true
  | _, _ => false
  end.

End Spec.

(** ** Concrete worlds, used to run the programs on examples *)

Module Examples.

(** [posixpath.basename]: what follows the last slash. *)
Fixpoint after_last_slash (p cur : string) : string :=
  match p with
  | EmptyString => cur
  | String c p' =>
      if Ascii.eqb c "/"%char then after_last_slash p' p'
      else after_last_slash p' cur
  end.

Definition posix_basename (p : string) : string := after_last_slash p p.

(** [os.path.abspath] for a process whose working directory is [/work],
    on paths without [.] or [..] components. *)
Definition work_abspath (p : string) : string :=
  match p with
  | String "/"%char _ => p
  | _ => "/work/" ++ p
  end.

Fixpoint ends_with (suffix s : string) : bool :=
  String.eqb s suffix ||
  match s with
  | EmptyString => false
  | String _ s' => ends_with suffix s'
  end.

(** A small MIME table. *)
Definition guess (p : string) : option string :=
  if ends_with ".zip" p then Some "application/zip"
  else if ends_with ".txt" p then Some "text/plain"
  else None.

(** A client whose calls all succeed, listing [contents]. *)
Definition good_client (contents : option (list (gmap string string)))
    : CosS3Client :=
  {| list_objects := fun _ => Ok {| Contents := contents |};
     put_object := fun _ => Ok tt;
     upload_file := fun _ => Ok tt |}.

(** A client whose transport fails on every call. *)
Definition failing_client : CosS3Client :=
  {| list_objects := fun _ => Raise (Exception "connection reset");
     put_object := fun _ => Raise (Exception "connection reset");
     upload_file := fun _ => Raise (Exception "connection reset") |}.

(** A world with the given environment, regular files (path and size) and
    client. *)
Definition world (env : gmap string string) (files : list (string * Z))
    (client : CosS3Client) : World :=
  {| environ := env;
     isfile := fun p => existsb (fun f => String.eqb (fst f) p) files;
     getsize := fun p =>
       match List.find (fun f => String.eqb (fst f) p) files with
       | Some f => Ok (snd f)
       | None => Raise (FileNotFoundError p)
       end;
     basename := posix_basename;
     abspath := work_abspath;
     guess_type := guess;
     open_rb := fun p =>
       if existsb (fun f => String.eqb (fst f) p) files then None
       else Some (FileNotFoundError p);
     sdk_client := fun _ => Ok client;
     stdout_encode_error := fun _ => None |}.

Definition env_full : gmap string string :=
  {[ "COS_BUCKET_NAME" := "example-1234567890";
     "COS_REGION" := "ap-singapore";
     "COS_SECRET_ID" := "AKIDexample";
     "COS_SECRET_KEY" := "SECRETexample" ]}.

Definition files : list (string * Z) :=
  [ ("dist/app.zip", 2 * 1024 * 1024);
    ("exact.bin", 5 * 1024 * 1024);
    ("above.bin", 5 * 1024 * 1024 + 1);
    ("video.mp4", 20 * 1024 * 1024);
    (" ", 3) ].

Definition w_ok : World := world env_full files (good_client None).
Definition w_fail : World := world env_full files failing_client.
Definition w_noenv : World := world ∅ files (good_client None).

(** [upload_to_cos.py <local_path>] with no option given. *)
Definition cmd (local_path : string) : Uploader.CommandLine :=
  {| Uploader.cl_local_path := local_path;
     Uploader.cl_key := None;
     Uploader.cl_bucket := None;
     Uploader.cl_region := None;
     Uploader.cl_secret_id := None;
     Uploader.cl_secret_key := None;
     Uploader.cl_token := None;
     Uploader.cl_storage_class := None;
     Uploader.cl_content_type := None;
     Uploader.cl_part_size := None;
     Uploader.cl_threads := None;
     Uploader.cl_md5 := false;
     Uploader.cl_acl := None;
     Uploader.cl_dry_run := false |}.

(** The same with [--key key] and, when [dry], [--dry-run]. *)
Definition cmd_key (local_path : string) (key : option string) (dry : bool)
    : Uploader.CommandLine :=
  {| Uploader.cl_local_path := local_path;
     Uploader.cl_key := key;
     Uploader.cl_bucket := None;
     Uploader.cl_region := None;
     Uploader.cl_secret_id := None;
     Uploader.cl_secret_key := None;
     Uploader.cl_token := None;
     Uploader.cl_storage_class := None;
     Uploader.cl_content_type := None;
     Uploader.cl_part_size := None;
     Uploader.cl_threads := None;
     Uploader.cl_md5 := false;
     Uploader.cl_acl := None;
     Uploader.cl_dry_run := dry |}.

(** [upload_file_to_cos] called with the defaults of its signature. *)
Definition upload (w : World) (local_path : string) (key : option string)
    (content_type : option string) (part_size_mb max_threads : Z) : M string :=
  Uploader.upload_file_to_cos w "example-1234567890" "ap-singapore"
    "AKIDexample" "SECRETexample" local_path key "STANDARD" content_type
    part_size_mb max_threads false None None.

End Examples.

(** ** More readers of a trace *)

Module Calls.

(** The paths of the [open] calls of a trace, in order. *)
Fixpoint opened (tr : list Event) : list string :=
  match tr with
  | [] => []
  | EvOpen p :: tr' => p :: opened tr'
  | _ :: tr' => opened tr'
  end.

(** The paths of the files closed in a trace, in order. *)
Fixpoint closed (tr : list Event) : list string :=
  match tr with
  | [] => []
  | EvClose p :: tr' => p :: closed tr'
  | _ :: tr' => closed tr'
  end.

(** The configurations of the clients built in a trace, in order. *)
Fixpoint client_configs (tr : list Event) : list CosConfig :=
  match tr with
  | [] => []
  | EvCreateClient cfg :: tr' => cfg :: client_configs tr'
  | _ :: tr' => client_configs tr'
  end.

(** The arguments of the [list_objects] calls of a trace, in order. *)
Fixpoint list_calls (tr : list Event) : list ListObjectsArgs :=
  match tr with
  | [] => []
  | EvListObjects a :: tr' => a :: list_calls tr'
  | _ :: tr' => list_calls tr'
  end.

End Calls.

(** ** More concrete worlds *)

Module Worlds.

Import Examples.

(** The SDK refuses to build a client. *)
Definition w_noclient : World :=
  {| environ := env_full;
     isfile := isfile w_ok;
     getsize := getsize w_ok;
     basename := posix_basename;
     abspath := work_abspath;
     guess_type := guess;
     open_rb := open_rb w_ok;
     sdk_client := fun _ => Raise (Exception "invalid credentials");
     stdout_encode_error := fun _ => None |}.

(** Every file vanishes between the [isfile] test and what follows it:
    [getsize] still answers, [open] raises [FileNotFoundError]. *)
Definition w_vanish : World :=
  {| environ := env_full;
     isfile := isfile w_ok;
     getsize := getsize w_ok;
     basename := posix_basename;
     abspath := work_abspath;
     guess_type := guess;
     open_rb := fun p => Some (FileNotFoundError ("[Errno 2] No such file or directory: " ++ p));
     sdk_client := fun _ => Ok (good_client None);
     stdout_encode_error := fun _ => None |}.

(** [getsize] fails on every path. *)
Definition w_nosize : World :=
  {| environ := env_full;
     isfile := isfile w_ok;
     getsize := fun p => Raise (Exception ("[Errno 13] Permission denied: " ++ p));
     basename := posix_basename;
     abspath := work_abspath;
     guess_type := guess;
     open_rb := open_rb w_ok;
     sdk_client := fun _ => Ok (good_client None);
     stdout_encode_error := fun _ => None |}.

(** The world [w] seen through a standard output whose encoding lacks the
    scripts' non-ASCII literals: printing one raises. *)
Definition narrow_stdout (w : World) : World :=
  {| environ := environ w;
     isfile := isfile w;
     getsize := getsize w;
     basename := basename w;
     abspath := abspath w;
     guess_type := guess_type w;
     open_rb := open_rb w;
     sdk_client := sdk_client w;
     stdout_encode_error := fun _ => Some "codec can't encode characters" |}.

(** A listing entry with its key and size, as the SDK returns them. *)
Definition entry (key size : string) : gmap string string :=
  {[ "Key" := key; "Size" := size ]}.

(** A listing entry that lacks its key. *)
Definition entry_without_key : gmap string string :=
  {[ "Size" := "0" ]}.

Definition two_entries : list (gmap string string) :=
  [entry "index.html" "120"; entry "img/logo.png" "2048"].

Definition twelve_entries : list (gmap string string) :=
  List.map (fun k => entry k "1")
    ["a"; "b"; "c"; "d"; "e"; "f"; "g"; "h"; "i"; "j"; "k"; "l"].

(** A world whose bucket lists [contents]. *)
Definition w_listing (contents : list (gmap string string)) : World :=
  world env_full files (good_client (Some contents)).

(** [upload_to_cos.py <local_path>] with the given flags for bucket, part
    size, thread count and MD5, and nothing else. *)
Definition cmd_with (local_path : string) (bucket : option string)
    (part_size threads : option Z) (md5 : bool) : Uploader.CommandLine :=
  {| Uploader.cl_local_path := local_path;
     Uploader.cl_key := None;
     Uploader.cl_bucket := bucket;
     Uploader.cl_region := None;
     Uploader.cl_secret_id := None;
     Uploader.cl_secret_key := None;
     Uploader.cl_token := None;
     Uploader.cl_storage_class := None;
     Uploader.cl_content_type := None;
     Uploader.cl_part_size := part_size;
     Uploader.cl_threads := threads;
     Uploader.cl_md5 := md5;
     Uploader.cl_acl := None;
     Uploader.cl_dry_run := false |}.

End Worlds.

(** ** What the lister reports *)

Module Report.

Import PyStr Lister.

(** The first line the lister's [main] prints for a listing: the count of
    the objects, or the line for an empty bucket. *)
Definition first_line (objects : list string) : string :=
  match objects with
  | [] => empty_line
  | _ :: _ => found_line objects
  end.

(** The lines that follow it, before the empty line: one for each of the
    first ten objects, then the count of those left out, if any. *)
Definition object_lines (objects : list string) : list string :=
  match objects with
  | [] => []
  | _ :: _ =>
      List.app (List.map (fun obj => "  - " ++ obj) (List.firstn 10 objects))
        (if (10 <? length objects)%nat
         then ["  ... and " ++ of_nat (length objects - 10) ++ " more objects"]
         else [])
  end.

End Report.

(** ** Proof automation *)

(** Unfolds the monad down to functions on states. *)
Ltac unfold_prog :=
unfold Uploader.create_client, with_open, mbind, M_bind, mret, M_ret,
       bind, ret, print_literal, raise, lift, print, emit, try_except in *.

(** Splits on the next answer of the world that the goal inspects. *)
Ltac world_case :=
match goal with
| |- context [match ?x with _ => _ end] =>
    lazymatch x with
    | context [match _ with _ => _ end] => fail
    | _ => destruct x eqn:?; simpl
    end
| |- context [if ?x then _ else _] =>
    lazymatch x with
    | context [if _ then _ else _] => fail
    | _ => destruct x eqn:?; simpl
    end
end.

(** Runs [upload_file_to_cos] symbolically, one goal per path. *)
Ltac upload_paths :=
unfold Uploader.upload_file_to_cos, Uploader.SMALL_FILE_THRESHOLD;
unfold_prog; simpl; repeat world_case.

(** Brings a trace built from appends, conses and maps to one shape. *)
Ltac norm_trace :=
  repeat (progress cbn [app List.map trace handles]
          || rewrite map_app || rewrite map_map || rewrite <- app_assoc).

(** ** Facts about Python strings *)

Section StringFacts.

Import PyStr.

Lemma lstrip_all_space (s : string) :
  all_space s = true -> lstrip s = EmptyString.
Proof.
  induction s as [|c s IH]; simpl; [reflexivity|].
  destruct (isspace c); simpl; [exact IH | discriminate].
Qed.

Lemma lstrip_not_all_space (s : string) :
  all_space s = false ->
  exists c r, lstrip s = String c r /\ isspace c = false.
Proof.
  induction s as [|c s IH]; simpl; [discriminate|].
  destruct (isspace c) eqn:Hc; simpl.
  - exact IH.
  - intros _. exists c, s. split; [reflexivity | exact Hc].
Qed.

Lemma rstrip_keeps_head (c : ascii) (r : string) :
  isspace c = false -> truthy (rstrip (String c r)) = true.
Proof.
  intros Hc. simpl. destruct (rstrip r); [rewrite Hc|]; reflexivity.
Qed.

(** [key.strip()] is false exactly on the empty string and on strings
    made of whitespace only. *)
Lemma strip_truthy (s : string) :
  truthy (strip s) = negb (all_space s).
Proof.
  unfold strip. destruct (all_space s) eqn:Hs.
  - rewrite (lstrip_all_space s Hs). reflexivity.
  - destruct (lstrip_not_all_space s Hs) as (c & r & -> & Hc).
    apply rstrip_keeps_head, Hc.
Qed.

Lemma truthy_all_space (s : string) :
  all_space s = false -> truthy s = true.
Proof. destruct s; [discriminate | reflexivity]. Qed.

End StringFacts.

(** ** Facts about [upload_file_to_cos] *)

Section UploadFacts.

Import PyStr Uploader Trace Spec.

Variable w : World.
Variables bucket_name region secret_id secret_key local_path : string.
Variable key : option string.
Variable storage_class : string.
Variable content_type : option string.
Variables part_size_mb max_threads : Z.
Variable enable_md5 : bool.
Variables acl token : option string.

(** The configuration [create_client] builds from the arguments, and the
    call of [upload_file_to_cos] on them. *)
Local Abbreviation config_of_args :=
  {| Region := region; SecretId := secret_id;
     SecretKey := secret_key; Token := token |}.
Local Abbreviation the_upload :=
  (upload_file_to_cos w bucket_name region secret_id secret_key local_path
     key storage_class content_type part_size_mb max_threads enable_md5
     acl token).

(** C1. For an existing regular file (that can be opened, with a client
    at hand), the run calls [put_object] and never [upload_file] when the
    size is at most 5*1024*1024 bytes, and calls [upload_file] and never
    [put_object] when the size is greater; the choice is the one the
    specification's threshold rule makes. *)
Theorem upload_strategy_by_size (client : CosS3Client) (size : Z) :
  isfile w local_path = true ->
  sdk_client w config_of_args = Ok client ->
  getsize w local_path = Ok size ->
  open_rb w local_path = None ->
  let tr := trace (snd (the_upload initial_state)) in
  strategy_called tr = Some (strategy_of_size size) /\
  (size <= 5 * 1024 * 1024 ->
     strategy_called tr = Some Direct /\ upload_calls tr = []) /\
  (5 * 1024 * 1024 < size ->
     strategy_called tr = Some Multipart /\ put_calls tr = []).
Proof.
  intros Hfile Hclient Hsize Hopen.
  unfold upload_file_to_cos, strategy_of_size in *.
  rewrite Hfile. unfold_prog. simpl. rewrite Hclient, Hsize.
  unfold SMALL_FILE_THRESHOLD.
  destruct (size <=? 5 * 1024 * 1024) eqn:Hle.
  - apply Z.leb_le in Hle. rewrite Hopen. simpl.
    destruct (put_object client _); simpl; repeat split; trivial; lia.
  - apply Z.leb_gt in Hle. simpl.
    destruct (upload_file client _); simpl; repeat split; trivial; lia.
Qed.

(** A path that is not a regular file: [FileNotFoundError], and the state
    is untouched. *)
Lemma upload_not_found (s : State) :
  isfile w local_path = false ->
  the_upload s =
    (Raise (FileNotFoundError ("Local file not found: " ++ local_path)), s).
Proof.
  intros Hfile. unfold upload_file_to_cos. rewrite Hfile. reflexivity.
Qed.

(** Whatever [upload_file_to_cos] returns is the resolved key. *)
Lemma upload_returns_resolved_key (s s' : State) (r : string) :
  the_upload s = (Ok r, s') -> r = resolved_key w local_path key.
Proof.
  upload_paths; intros H; inversion H; reflexivity.
Qed.

(** Every [put_object] call carries the resolved key and content type. *)
Lemma upload_put_calls :
  Forall (fun extra =>
            po_Key extra = resolved_key w local_path key /\
            po_ContentType extra =
              resolved_content_type w local_path content_type)
         (put_calls (trace (snd (the_upload initial_state)))).
Proof.
  upload_paths; repeat constructor.
Qed.

(** Every [upload_file] call carries the resolved key. *)
Lemma upload_multipart_calls :
  Forall (fun a => uf_Key a = resolved_key w local_path key)
         (upload_calls (trace (snd (the_upload initial_state)))).
Proof.
  upload_paths; repeat constructor.
Qed.

(** The key test of the source and the specification's wording agree. *)
Lemma resolved_key_spec :
  resolved_key w local_path key = key_of key (basename w local_path).
Proof.
  unfold resolved_key, key_of. destruct key as [k|]; [|reflexivity].
  rewrite strip_truthy, negb_involutive. reflexivity.
Qed.

(** C3. The content type is the explicit override when one is given,
    else the type [mimetypes] infers from the path when it infers one
    (a MIME type, so not the empty string), else
    [application/octet-stream]; that value is the [ContentType] of every
    [put_object] call the upload makes, and on the direct path (an existing
    file of at most 5 MiB that opens, with a client built) there is exactly
    one such call, carrying it. *)
Theorem content_type_resolution :
  guess_type w local_path <> Some EmptyString ->
  resolved_content_type w local_path content_type =
    content_type_of content_type (guess_type w local_path) /\
  Forall (fun extra =>
            po_ContentType extra =
              content_type_of content_type (guess_type w local_path))
         (put_calls (trace (snd (the_upload initial_state)))) /\
  (forall client size,
      isfile w local_path = true ->
      sdk_client w config_of_args = Ok client ->
      getsize w local_path = Ok size ->
      size <= 5 * 1024 * 1024 ->
      open_rb w local_path = None ->
      exists extra,
        put_calls (trace (snd (the_upload initial_state))) = [extra] /\
        po_ContentType extra =
          content_type_of content_type (guess_type w local_path)).
Proof.
  intros Hguess.
  assert (Heq : resolved_content_type w local_path content_type =
                content_type_of content_type (guess_type w local_path)).
  { unfold resolved_content_type, content_type_of, or_else.
    destruct content_type as [ct|]; [reflexivity|].
    destruct (guess_type w local_path) as [[|c t]|]; try reflexivity.
    congruence. }
  split; [exact Heq|].
  rewrite <- Heq.
  split.
  { eapply Forall_impl; [exact upload_put_calls|].
    intros extra [_ Hct]. exact Hct. }
  intros client size Hfile Hclient Hsize Hle Hopen.
  unfold upload_file_to_cos. rewrite Hfile. unfold_prog. simpl.
  rewrite Hclient, Hsize. unfold SMALL_FILE_THRESHOLD.
  apply Z.leb_le in Hle. rewrite Hle, Hopen. simpl.
  eexists. split; [destruct (put_object client _); reflexivity|].
  reflexivity.
Qed.

(** C4. The resolved key is the base name of the local path when the key
    is absent, empty or whitespace only, and the given key otherwise; it
    is the key of every SDK upload call, it is what the function returns
    whenever it returns, and the function does return it when the file
    exists and the SDK calls succeed. *)
Theorem key_resolution :
  resolved_key w local_path key = key_of key (basename w local_path) /\
  Forall (fun extra => po_Key extra = key_of key (basename w local_path))
         (put_calls (trace (snd (the_upload initial_state)))) /\
  Forall (fun a => uf_Key a = key_of key (basename w local_path))
         (upload_calls (trace (snd (the_upload initial_state)))) /\
  (forall s s' r,
      the_upload s = (Ok r, s') -> r = key_of key (basename w local_path)) /\
  (forall client size s,
      isfile w local_path = true ->
      sdk_client w config_of_args = Ok client ->
      getsize w local_path = Ok size ->
      open_rb w local_path = None ->
      (forall extra, put_object client extra = Ok tt) ->
      (forall a, upload_file client a = Ok tt) ->
      fst (the_upload s) = Ok (key_of key (basename w local_path))).
Proof.
  rewrite <- resolved_key_spec.
  split; [reflexivity|].
  split.
  { eapply Forall_impl; [exact upload_put_calls|]. intros extra [Hk _]. exact Hk. }
  split; [exact upload_multipart_calls|].
  split.
  { intros s s' r H. exact (upload_returns_resolved_key s s' r H). }
  intros client size s Hfile Hclient Hsize Hopen Hput Hup.
  unfold upload_file_to_cos. rewrite Hfile. unfold_prog. simpl.
  rewrite Hclient, Hsize.
  destruct (size <=? SMALL_FILE_THRESHOLD).
  - rewrite Hopen. simpl. rewrite Hput. reflexivity.
  - simpl. rewrite Hup. reflexivity.
Qed.

(** C8. The file handle of the direct path never outlives the call: the
    open handles after [upload_file_to_cos] are those before it, on every
    path; and when the file opens and [put_object] raises, the exception
    is passed on after the handle has been closed: closing the file is
    the event that follows the [put_object] call, and the last one. *)
Theorem direct_upload_releases_handle (s : State) :
  handles (snd (the_upload s)) = handles s /\
  (forall client size e,
      isfile w local_path = true ->
      sdk_client w config_of_args = Ok client ->
      getsize w local_path = Ok size ->
      size <= 5 * 1024 * 1024 ->
      open_rb w local_path = None ->
      (forall extra, put_object client extra = Raise e) ->
      fst (the_upload s) = Raise e /\
      handles (snd (the_upload s)) = handles s /\
      exists extra,
        trace (snd (the_upload s)) =
          (trace s ++ [EvCreateClient config_of_args; EvOpen local_path;
                       EvPutObject extra; EvClose local_path])%list).
Proof.
  split.
  - upload_paths; try reflexivity;
      match goal with
      | H : String.eqb ?p ?p = false |- _ =>
          rewrite String.eqb_refl in H; discriminate H
      end.
  - intros client size e Hfile Hclient Hsize Hle Hopen Hput.
    unfold upload_file_to_cos. rewrite Hfile. unfold_prog. simpl.
    rewrite Hclient, Hsize. unfold SMALL_FILE_THRESHOLD.
    apply Z.leb_le in Hle. rewrite Hle, Hopen. simpl.
    rewrite Hput. simpl. rewrite String.eqb_refl.
    repeat split.
    eexists. rewrite <- !app_assoc. reflexivity.
Qed.

(** C9. Every [upload_file] call is made with [PartSize] and [MAXThread]
    at least 1, whatever integers [part_size_mb] and [max_threads] are;
    and on the multipart path there is exactly one such call, with
    [max(1, part_size_mb)] and [max(1, max_threads)]. *)
Theorem multipart_sizes_clamped :
  Forall (fun a => 1 <= uf_PartSize a /\ 1 <= uf_MAXThread a)
         (upload_calls (trace (snd (the_upload initial_state)))) /\
  (forall client size,
      isfile w local_path = true ->
      sdk_client w config_of_args = Ok client ->
      getsize w local_path = Ok size ->
      5 * 1024 * 1024 < size ->
      exists a,
        upload_calls (trace (snd (the_upload initial_state))) = [a] /\
        uf_PartSize a = Z.max 1 part_size_mb /\
        uf_MAXThread a = Z.max 1 max_threads /\
        1 <= uf_PartSize a /\ 1 <= uf_MAXThread a).
Proof.
  split.
  - upload_paths; repeat constructor; simpl; lia.
  - intros client size Hfile Hclient Hsize Hgt.
    unfold upload_file_to_cos. rewrite Hfile. unfold_prog. simpl.
    rewrite Hclient, Hsize. unfold SMALL_FILE_THRESHOLD.
    apply Z.leb_gt in Hgt. rewrite Hgt. simpl.
    eexists. split.
    + destruct (upload_file client _); reflexivity.
    + simpl. lia.
Qed.

End UploadFacts.

(** ** Facts about the uploader's [parse_args] and [main] *)

Section MainFacts.

Import PyStr Uploader Trace Spec.

Variable w : World.
Variable cl : CommandLine.

(** [parse_args] returns only the parsed namespace, with nothing missing,
    and makes no call. *)
Lemma parse_args_inv (s s' : State) (args : Namespace) :
  parse_args w cl s = (Ok args, s') ->
  args = parser_parse_args w cl /\ s' = s /\ missing_fields args = [].
Proof.
  unfold parse_args.
  destruct (missing_fields (parser_parse_args w cl)) eqn:Hm; unfold_prog;
    intros H; inversion H; subst; auto.
Qed.

(** When [parse_args] returns, the four required fields are non-empty
    strings. *)
Lemma parse_args_required (args : Namespace) :
  missing_fields args = [] ->
  truthy_opt (args_bucket args) = true /\
  truthy_opt (args_region args) = true /\
  truthy_opt (args_secret_id args) = true /\
  truthy_opt (args_secret_key args) = true.
Proof.
  unfold missing_fields.
  destruct (truthy_opt (args_bucket args)),
           (truthy_opt (args_region args)),
           (truthy_opt (args_secret_id args)),
           (truthy_opt (args_secret_key args));
    simpl; intros H; try discriminate H; auto.
Qed.

(** An absent field fails the truth test of [parse_args]. *)
Lemma absent_falsy (f : Required) :
  absent w cl f = true ->
  truthy_opt (field_of (parser_parse_args w cl) f) = false.
Proof.
  unfold absent. destruct f; simpl; unfold with_getenv;
    match goal with
    | |- context [match ?flag with Some _ => _ | None => _ end] =>
        destruct flag; [discriminate|]
    end;
    match goal with
    | |- context [environ w !! ?name] =>
        destruct (environ w !! name); [discriminate | reflexivity]
    end.
Qed.

(** The shape of a dry run: five lines printed, 0 returned. *)
Lemma main_dry_run (s : State) (args : Namespace) :
  parse_args w cl s = (Ok args, s) ->
  args_dry_run args = true ->
  main w cl s =
    (Ok 0,
     {| trace :=
          (trace s ++
           [EvPrint "Dry run: would upload";
            EvPrint ("  Local: " ++ abspath w (args_local_path args));
            EvPrint ("  Bucket: " ++ fmt_opt (args_bucket args));
            EvPrint ("  Region: " ++ fmt_opt (args_region args));
            EvPrint ("  Key: " ++
                     planned_key w (args_local_path args) (args_key args))])%list;
        handles := handles s |}).
Proof.
  intros Hparse Hdry. unfold main. unfold mbind at 1, M_bind at 1, bind at 1.
  rewrite Hparse, Hdry. unfold_prog. simpl.
  rewrite <- !app_assoc. reflexivity.
Qed.

(** C6. With [--dry-run] and arguments that [parse_args] accepts, the
    process exits with status 0 after printing the plan; it makes no SDK
    call at all: no client, no [put_object], no [upload_file]. *)
Theorem dry_run_makes_no_call (args : Namespace) :
  cl_dry_run cl = true ->
  parse_args w cl initial_state = (Ok args, initial_state) ->
  fst (run_process (main w cl)) = 0 /\
  put_calls (snd (run_process (main w cl))) = [] /\
  upload_calls (snd (run_process (main w cl))) = [] /\
  sdk_calls (snd (run_process (main w cl))) = [].
Proof.
  intros Hdry Hparse.
  destruct (parse_args_inv _ _ _ Hparse) as (Hargs & _ & _).
  assert (Hd : args_dry_run args = true) by (rewrite Hargs; exact Hdry).
  unfold run_process. rewrite (main_dry_run _ _ Hparse Hd). simpl.
  repeat split.
Qed.

(** C5. When two or more of bucket, region, secret id and secret key are
    absent from both the flags and the environment, [parse_args] raises
    one [SystemExit] whose message lists the missing fields, every absent
    one among them; [main] passes it on unchanged, the state is untouched
    (no call of any kind was made) and the process ends with a non-zero
    status. *)
Theorem missing_configuration_enumerated :
  (2 <= length (List.filter (absent w cl) all_required))%nat ->
  exists missing : list string,
    (forall s,
       parse_args w cl s =
         (Raise (SystemExit ("Missing required configuration: "
                             ++ join ", " missing)), s)) /\
    (forall f, absent w cl f = true -> In (label f) missing) /\
    (2 <= length missing)%nat /\
    (forall s,
       main w cl s =
         (Raise (SystemExit ("Missing required configuration: "
                             ++ join ", " missing)), s)) /\
    run_process (main w cl) = (1, []).
Proof.
  intros Hcount.
  exists (missing_fields (parser_parse_args w cl)).
  pose proof (absent_falsy ReqBucket) as Hb.
  pose proof (absent_falsy ReqRegion) as Hr.
  pose proof (absent_falsy ReqSecretId) as Hi.
  pose proof (absent_falsy ReqSecretKey) as Hk.
  assert (Hmiss :
    (forall f, absent w cl f = true ->
               In (label f) (missing_fields (parser_parse_args w cl))) /\
    (2 <= length (missing_fields (parser_parse_args w cl)))%nat).
  { unfold missing_fields. cbn [field_of] in Hb, Hr, Hi, Hk.
    unfold all_required in Hcount. cbn [List.filter] in Hcount.
    destruct (absent w cl ReqBucket) eqn:Eb, (absent w cl ReqRegion) eqn:Er,
             (absent w cl ReqSecretId) eqn:Ei,
             (absent w cl ReqSecretKey) eqn:Ek;
      cbn [length] in Hcount; try lia;
      try rewrite (Hb eq_refl); try rewrite (Hr eq_refl);
      try rewrite (Hi eq_refl); try rewrite (Hk eq_refl);
      clear Hb Hr Hi Hk;
      repeat match goal with
             | |- context [truthy_opt ?x] => destruct (truthy_opt x)
             end;
      (split; [intros f; destruct f; simpl; intros Hf;
               try congruence; auto 10 | simpl; lia]). }
  destruct Hmiss as [Hin Hlen].
  assert (Hparse : forall s,
    parse_args w cl s =
      (Raise (SystemExit ("Missing required configuration: "
                ++ join ", " (missing_fields (parser_parse_args w cl)))), s)).
  { intros s. unfold parse_args.
    destruct (missing_fields (parser_parse_args w cl)); [simpl in Hlen; lia|].
    reflexivity. }
  assert (Hmain : forall s,
    main w cl s =
      (Raise (SystemExit ("Missing required configuration: "
                ++ join ", " (missing_fields (parser_parse_args w cl)))), s)).
  { intros s. unfold main. unfold mbind at 1, M_bind at 1, bind at 1.
    rewrite Hparse. reflexivity. }
  split; [exact Hparse|].
  split; [exact Hin|].
  split; [exact Hlen|].
  split; [exact Hmain|].
  unfold run_process. rewrite Hmain. reflexivity.
Qed.

(** A real run on a path that is not a regular file: the header is
    printed, then the error, and [main] returns 2. *)
Lemma main_not_found (s : State) (args : Namespace) :
  parse_args w cl s = (Ok args, s) ->
  args_dry_run args = false ->
  isfile w (args_local_path args) = false ->
  main w cl s =
    (Ok 2,
     {| trace :=
          (trace s ++
           [EvPrint "Tencent COS Upload";
            EvPrint (repeat "=" 40);
            EvPrint ("Bucket: " ++ fmt_opt (args_bucket args));
            EvPrint ("Region: " ++ fmt_opt (args_region args));
            EvPrint ("Key: " ++
                     planned_key w (args_local_path args) (args_key args));
            EvPrint EmptyString;
            EvPrint ("Error: Local file not found: " ++ args_local_path args)])%list;
        handles := handles s |}).
Proof.
  intros Hparse Hdry Hfile. unfold main.
  unfold mbind at 1, M_bind at 1, bind at 1.
  rewrite Hparse, Hdry. unfold_prog. cbn [trace handles].
  rewrite upload_not_found by exact Hfile. cbn [exn_str trace handles].
  rewrite <- !app_assoc. reflexivity.
Qed.

End MainFacts.

Section NotFound.

Import PyStr Uploader Trace Spec.

Variable w : World.
Variables bucket_name region secret_id secret_key local_path : string.
Variable key : option string.
Variable storage_class : string.
Variable content_type : option string.
Variables part_size_mb max_threads : Z.
Variable enable_md5 : bool.
Variables acl token : option string.
Variable cl : CommandLine.

Local Abbreviation the_upload :=
  (upload_file_to_cos w bucket_name region secret_id secret_key local_path
     key storage_class content_type part_size_mb max_threads enable_md5
     acl token).

(** C2. When [local_path] is not an existing regular file,
    [upload_file_to_cos] raises [FileNotFoundError] and leaves the state
    as it was: nothing was called, so no client was built and no SDK call
    made.  A uploader process given that path (with arguments that
    [parse_args] accepts, not a dry run) exits with status 2, again
    without any SDK call. *)
Theorem missing_file_not_found :
  isfile w local_path = false ->
  (forall s,
      the_upload s =
        (Raise (FileNotFoundError ("Local file not found: " ++ local_path)), s)) /\
  sdk_calls (trace (snd (the_upload initial_state))) = [] /\
  (forall args,
      cl_local_path cl = local_path ->
      parse_args w cl initial_state = (Ok args, initial_state) ->
      args_dry_run args = false ->
      fst (run_process (main w cl)) = 2 /\
      sdk_calls (snd (run_process (main w cl))) = []).
Proof.
  intros Hfile.
  split; [intros s; apply upload_not_found, Hfile|].
  split; [rewrite upload_not_found by exact Hfile; reflexivity|].
  intros args Hpath Hparse Hdry.
  destruct (parse_args_inv _ _ _ _ _ Hparse) as (Hargs & _ & _).
  assert (Hf : isfile w (args_local_path args) = false).
  { rewrite Hargs. simpl. rewrite Hpath. exact Hfile. }
  unfold run_process. rewrite (main_not_found _ _ _ _ Hparse Hdry Hf).
  split; reflexivity.
Qed.

End NotFound.

Section KeyPlan.

Import PyStr Uploader Trace Spec.

Variable w : World.
Variable local_path : string.

(** C10, as amended.  The key a dry run plans and the key a real upload
    resolves are equal when the key is absent, empty, or holds a
    character that is not whitespace.  For a key that is not empty and
    whitespace only, the dry run plans the key itself and the real upload
    resolves the base name; the two differ exactly when the base name is
    not that same whitespace string. *)
Theorem planned_key_vs_resolved_key (key : option string) :
  (key = None \/ key = Some EmptyString \/
   (exists k, key = Some k /\ all_space k = false) ->
   planned_key w local_path key = resolved_key w local_path key) /\
  (forall k,
      key = Some k -> k <> EmptyString -> all_space k = true ->
      planned_key w local_path key = k /\
      resolved_key w local_path key = basename w local_path /\
      (planned_key w local_path key <> resolved_key w local_path key <->
       basename w local_path <> k)).
Proof.
  split.
  - intros [-> | [-> | (k & -> & Hk)]]; try reflexivity.
    unfold planned_key, resolved_key, or_else.
    rewrite strip_truthy, Hk, (truthy_all_space k Hk). reflexivity.
  - intros k -> Hne Hk.
    assert (Hp : planned_key w local_path (Some k) = k).
    { unfold planned_key, or_else. destruct k; [congruence | reflexivity]. }
    assert (Hr : resolved_key w local_path (Some k) = basename w local_path).
    { unfold resolved_key. rewrite strip_truthy, Hk. reflexivity. }
    rewrite Hp, Hr. repeat split; congruence.
Qed.

End KeyPlan.

(** ** Facts about the lister *)

Section ListerFacts.

Import PyStr Lister Trace.

Variable w : World.
Variables DEFAULT_SECRET_ID DEFAULT_SECRET_KEY : string.

(** C7, as amended.  When the client the SDK builds answers the listing
    with no contents (no ['Contents'] entry, or an empty one),
    [list_cos_objects] returns the empty list, not [None].  The lister
    process then exits with status 0, after the success line, when standard
    output can encode the two check-marked lines it prints; when it cannot
    encode one of them, that print raises outside any [try] and the process
    ends with status 1. *)
Theorem empty_listing_is_success (client : CosS3Client) (response : ListResponse) :
  (forall cfg, sdk_client w cfg = Ok client) ->
  (forall request, list_objects client request = Ok response) ->
  Contents response = None \/ Contents response = Some [] ->
  (forall bucket_name region secret_id secret_key pre s,
      fst (list_cos_objects w bucket_name region secret_id secret_key pre s)
      = Ok (Some [])) /\
  (stdout_encode_error w empty_line = None ->
   stdout_encode_error w success_line = None ->
   fst (run_process (main DEFAULT_SECRET_ID DEFAULT_SECRET_KEY w)) = 0 /\
   In success_line
      (printed (snd (run_process (main DEFAULT_SECRET_ID DEFAULT_SECRET_KEY w))))) /\
  (stdout_encode_error w empty_line <> None \/
   stdout_encode_error w success_line <> None ->
   fst (run_process (main DEFAULT_SECRET_ID DEFAULT_SECRET_KEY w)) = 1 /\
   ~ In success_line
        (printed (snd (run_process (main DEFAULT_SECRET_ID DEFAULT_SECRET_KEY w))))).
Proof.
  intros Hclient Hlist Hempty.
  assert (Hkeys :
    match Contents response with
    | Some contents => collect_keys contents []
    | None => Ok []
    end = Ok []).
  { destruct Hempty as [-> | ->]; reflexivity. }
  assert (Hrun : forall bucket_name region secret_id secret_key pre s,
    list_cos_objects w bucket_name region secret_id secret_key pre s
    = (Ok (Some []),
       {| trace :=
            (trace s ++
             [EvCreateClient {| Region := region; SecretId := secret_id;
                                SecretKey := secret_key; Token := None |};
              EvListObjects {| lo_Bucket := bucket_name; lo_Prefix := pre;
                               lo_Delimiter := EmptyString;
                               lo_MaxKeys := 1000 |}])%list;
          handles := handles s |})).
  { intros. unfold list_cos_objects. unfold_prog. simpl.
    rewrite Hclient. simpl. rewrite Hlist. simpl. rewrite Hkeys.
    rewrite <- !app_assoc. reflexivity. }
  assert (Hmarks : empty_line <> success_line) by (vm_compute; discriminate).
  split.
  { intros bucket_name region secret_id secret_key pre s.
    rewrite Hrun. reflexivity. }
  split.
  - intros Hline Hsuccess.
    unfold run_process, main. unfold_prog. cbn [trace handles].
    rewrite Hrun. cbn [trace handles fst snd].
    rewrite Hline. cbn [trace handles]. rewrite Hsuccess.
    cbn [trace handles fst snd exit_status].
    split; [reflexivity|].
    rewrite <- !app_assoc. cbn [app printed].
    do 10 right. left. reflexivity.
  - intros Hfail.
    unfold run_process, main. unfold_prog. cbn [trace handles].
    rewrite Hrun. cbn [trace handles fst snd].
    destruct (stdout_encode_error w empty_line) as [msg|] eqn:Hline.
    + cbn [fst snd exit_status trace]. split; [reflexivity|].
      rewrite <- !app_assoc. cbn [app printed].
      intros Hin. repeat (destruct Hin as [Hin | Hin]; [discriminate Hin|]).
      exact Hin.
    + cbn [trace handles].
      destruct (stdout_encode_error w success_line) as [msg|] eqn:Hsuccess.
      * cbn [fst snd exit_status trace]. split; [reflexivity|].
        rewrite <- !app_assoc. cbn [app printed].
        intros Hin.
        repeat (destruct Hin as [Hin | Hin];
                [first [discriminate Hin | congruence]|]).
        exact Hin.
      * destruct Hfail as [H | H]; congruence.
Qed.

End ListerFacts.

(** ** The theorems at concrete inputs *)

Section Witnesses.

Import PyStr Uploader Trace Spec Examples.

(** A file of exactly 5 MiB goes to [put_object], one of 5 MiB + 1 byte to
    [upload_file]. *)
Lemma upload_strategy_by_size_witness :
  (getsize w_ok "exact.bin" = Ok 5242880 /\
   strategy_called
     (trace (snd (upload w_ok "exact.bin" None None 8 5 initial_state)))
   = Some Direct) /\
  (getsize w_ok "above.bin" = Ok 5242881 /\
   strategy_called
     (trace (snd (upload w_ok "above.bin" None None 8 5 initial_state)))
   = Some Multipart).
Proof.
  split; (split; [reflexivity|]).
  - pose proof (upload_strategy_by_size w_ok "example-1234567890"
                  "ap-singapore" "AKIDexample" "SECRETexample" "exact.bin"
                  None "STANDARD" None 8 5 false None None
                  (good_client None) 5242880
                  eq_refl eq_refl eq_refl eq_refl) as (_ & Hdirect & _).
    apply Hdirect. vm_compute. discriminate.
  - pose proof (upload_strategy_by_size w_ok "example-1234567890"
                  "ap-singapore" "AKIDexample" "SECRETexample" "above.bin"
                  None "STANDARD" None 8 5 false None None
                  (good_client None) 5242881
                  eq_refl eq_refl eq_refl eq_refl) as (_ & _ & Hmulti).
    apply Hmulti. vm_compute. reflexivity.
Defined.

(** [nope.txt] does not exist: status 2 and no SDK call. *)
Lemma missing_file_not_found_witness :
  isfile w_ok "nope.txt" = false /\
  fst (upload w_ok "nope.txt" None None 8 5 initial_state)
  = Raise (FileNotFoundError "Local file not found: nope.txt") /\
  run_process (main w_ok (cmd "nope.txt")) =
    (2, snd (run_process (main w_ok (cmd "nope.txt")))) /\
  sdk_calls (snd (run_process (main w_ok (cmd "nope.txt")))) = [].
Proof.
  pose proof (missing_file_not_found w_ok "example-1234567890"
                "ap-singapore" "AKIDexample" "SECRETexample" "nope.txt"
                None "STANDARD" None 8 5 false None None (cmd "nope.txt")
                eq_refl) as (Hup & _ & Hmain).
  destruct (Hmain (parser_parse_args w_ok (cmd "nope.txt"))
              eq_refl eq_refl eq_refl) as [Hcode Hcalls].
  split; [reflexivity|].
  split; [unfold upload; rewrite Hup; reflexivity|].
  split; [|exact Hcalls].
  rewrite <- Hcode. destruct (run_process _); reflexivity.
Defined.

(** A zip archive with no override: one [put_object] call, sent as
    [application/zip]. *)
Lemma content_type_resolution_witness :
  guess_type w_ok "dist/app.zip" <> Some EmptyString /\
  resolved_content_type w_ok "dist/app.zip" None = "application/zip" /\
  exists extra,
    put_calls (trace (snd (upload w_ok "dist/app.zip" None None 8 5
                             initial_state))) = [extra] /\
    po_ContentType extra = "application/zip".
Proof.
  assert (Hguess : guess_type w_ok "dist/app.zip" <> Some EmptyString)
    by (vm_compute; discriminate).
  split; [exact Hguess|].
  destruct (content_type_resolution w_ok "example-1234567890"
              "ap-singapore" "AKIDexample" "SECRETexample" "dist/app.zip"
              None "STANDARD" None 8 5 false None None Hguess)
    as (Hresolved & _ & Hcall).
  split; [exact Hresolved|].
  refine (Hcall (good_client None) (2 * 1024 * 1024)
            eq_refl eq_refl eq_refl _ eq_refl).
  vm_compute. discriminate.
Defined.

(** A key of three spaces resolves to the base name, which is returned. *)
Lemma key_resolution_witness :
  resolved_key w_ok "dist/app.zip" (Some "   ") = "app.zip" /\
  fst (upload w_ok "dist/app.zip" (Some "   ") None 8 5 initial_state)
  = Ok "app.zip".
Proof.
  pose proof (key_resolution w_ok "example-1234567890"
                "ap-singapore" "AKIDexample" "SECRETexample" "dist/app.zip"
                (Some "   ") "STANDARD" None 8 5 false None None)
    as (Hkey & _ & _ & _ & Hret).
  split; [exact Hkey|].
  exact (Hret (good_client None) (2 * 1024 * 1024) initial_state
           eq_refl eq_refl eq_refl eq_refl
           (fun _ => eq_refl) (fun _ => eq_refl)).
Defined.

(** No flag and an empty environment: all four fields are reported. *)
Lemma missing_configuration_enumerated_witness :
  exists missing : list string,
    fst (parse_args w_noenv (cmd "dist/app.zip") initial_state)
    = Raise (SystemExit ("Missing required configuration: "
                         ++ join ", " missing)) /\
    (forall f, In (label f) missing) /\
    run_process (main w_noenv (cmd "dist/app.zip")) = (1, []).
Proof.
  assert (Hcount :
    (2 <= length (List.filter (absent w_noenv (cmd "dist/app.zip"))
                    all_required))%nat).
  { vm_compute. repeat constructor. }
  destruct (missing_configuration_enumerated w_noenv (cmd "dist/app.zip")
              Hcount) as (missing & Hparse & Hin & _ & _ & Hrun).
  exists missing.
  split; [rewrite Hparse; reflexivity|].
  split; [|exact Hrun].
  intros f. apply Hin. destruct f; reflexivity.
Defined.

(** A dry run of an existing file. *)
Lemma dry_run_makes_no_call_witness :
  fst (run_process (main w_ok (cmd_key "dist/app.zip" None true))) = 0 /\
  put_calls (snd (run_process (main w_ok (cmd_key "dist/app.zip" None true)))) = [] /\
  upload_calls (snd (run_process (main w_ok (cmd_key "dist/app.zip" None true)))) = [] /\
  sdk_calls (snd (run_process (main w_ok (cmd_key "dist/app.zip" None true)))) = [].
Proof.
  exact (dry_run_makes_no_call w_ok (cmd_key "dist/app.zip" None true)
           (parser_parse_args w_ok (cmd_key "dist/app.zip" None true))
           eq_refl eq_refl).
Defined.

(** The transport fails during [put_object]: the handle is closed. *)
Lemma direct_upload_releases_handle_witness :
  fst (upload w_fail "exact.bin" None None 8 5 initial_state)
  = Raise (Exception "connection reset") /\
  handles (snd (upload w_fail "exact.bin" None None 8 5 initial_state)) = [] /\
  exists extra,
    trace (snd (upload w_fail "exact.bin" None None 8 5 initial_state)) =
      [EvCreateClient {| Region := "ap-singapore"; SecretId := "AKIDexample";
                         SecretKey := "SECRETexample"; Token := None |};
       EvOpen "exact.bin"; EvPutObject extra; EvClose "exact.bin"].
Proof.
  pose proof (direct_upload_releases_handle w_fail "example-1234567890"
                "ap-singapore" "AKIDexample" "SECRETexample" "exact.bin"
                None "STANDARD" None 8 5 false None None initial_state)
    as (_ & Hraise).
  refine (Hraise failing_client (5 * 1024 * 1024)
            (Exception "connection reset")
            eq_refl eq_refl eq_refl _ eq_refl (fun _ => eq_refl)).
  vm_compute. discriminate.
Defined.

(** [--part-size 0 --threads -3] on a 20 MiB file: both become 1. *)
Lemma multipart_sizes_clamped_witness :
  exists a,
    upload_calls (trace (snd (upload w_ok "video.mp4" None None 0 (-3)
                                initial_state))) = [a] /\
    uf_PartSize a = 1 /\ uf_MAXThread a = 1 /\
    1 <= uf_PartSize a /\ 1 <= uf_MAXThread a.
Proof.
  pose proof (multipart_sizes_clamped w_ok "example-1234567890"
                "ap-singapore" "AKIDexample" "SECRETexample" "video.mp4"
                None "STANDARD" None 0 (-3) false None None)
    as (_ & Hmulti).
  refine (Hmulti (good_client None) (20 * 1024 * 1024)
            eq_refl eq_refl eq_refl _).
  vm_compute. reflexivity.
Defined.

(** Three spaces as key for [dist/app.zip]: the dry run plans the spaces,
    the upload resolves [app.zip]. *)
Lemma planned_key_vs_resolved_key_witness :
  planned_key w_ok "dist/app.zip" (Some "   ") = "   " /\
  resolved_key w_ok "dist/app.zip" (Some "   ") = "app.zip" /\
  planned_key w_ok "dist/app.zip" (Some "   ")
  <> resolved_key w_ok "dist/app.zip" (Some "   ").
Proof.
  pose proof (planned_key_vs_resolved_key w_ok "dist/app.zip" (Some "   "))
    as (_ & Hblank).
  assert (Hne : "   " <> EmptyString) by discriminate.
  destruct (Hblank "   " eq_refl Hne eq_refl) as (Hp & Hr & Hiff).
  split; [exact Hp|]. split; [exact Hr|].
  apply Hiff. vm_compute. discriminate.
Defined.

(** An empty bucket listed with the environment of the examples: status 0
    on a standard output that has the check mark, status 1 on one that has
    not. *)
Lemma empty_listing_is_success_witness :
  fst (Lister.list_cos_objects w_ok "example-1234567890" "ap-singapore"
         "AKIDexample" "SECRETexample" EmptyString initial_state)
  = Ok (Some []) /\
  fst (run_process (Lister.main "id" "key" w_ok)) = 0 /\
  fst (run_process (Lister.main "id" "key" (Worlds.narrow_stdout w_ok))) = 1.
Proof.
  pose proof (empty_listing_is_success w_ok "id" "key" (good_client None)
                {| Contents := None |}
                (fun _ => eq_refl) (fun _ => eq_refl) (or_introl eq_refl))
    as (Hlist & Hcode & _).
  pose proof (empty_listing_is_success (Worlds.narrow_stdout w_ok) "id" "key"
                (good_client None) {| Contents := None |}
                (fun _ => eq_refl) (fun _ => eq_refl) (or_introl eq_refl))
    as (_ & _ & Hnarrow).
  split; [apply Hlist|].
  split; [exact (proj1 (Hcode eq_refl eq_refl))|].
  apply Hnarrow. left. discriminate.
Defined.

(** C7 as stated fails: in the world of the examples seen through a
    standard output that cannot encode the check mark, the client reports
    an empty listing and [list_cos_objects] returns the empty list, yet the
    print of the check-marked line raises outside any [try] and the process
    ends with status 1, not 0. *)
Lemma empty_listing_exit_needs_check_mark :
  ~ (forall (w : World) (id key : string)
            (client : CosS3Client) (response : ListResponse),
        (forall cfg, sdk_client w cfg = Ok client) ->
        (forall request, list_objects client request = Ok response) ->
        Contents response = None \/ Contents response = Some [] ->
        fst (run_process (Lister.main id key w)) = 0).
Proof.
  intros Hclaim.
  specialize (Hclaim (Worlds.narrow_stdout w_ok) "id" "key"
                (good_client None) {| Contents := None |}
                (fun _ => eq_refl) (fun _ => eq_refl) (or_introl eq_refl)).
  vm_compute in Hclaim. discriminate Hclaim.
Qed.

(** Both programs on that input: the dry run prints the key of one space,
    and the real upload sends and returns the same one space. *)
Example blank_key_dry_run :
  run_process (main w_ok (cmd_key " " (Some " ") true)) =
    (0, [EvPrint "Dry run: would upload";
         EvPrint "  Local: /work/ ";
         EvPrint "  Bucket: example-1234567890";
         EvPrint "  Region: ap-singapore";
         EvPrint "  Key:  "]).
Proof. reflexivity. Qed.

Example blank_key_real_upload :
  fst (upload w_ok " " (Some " ") None 8 5 initial_state) = Ok " " /\
  List.map po_Key
    (put_calls (trace (snd (upload w_ok " " (Some " ") None 8 5
                              initial_state)))) = [" "].
Proof. split; reflexivity. Qed.

(** C10 as stated fails: for the file named by one space and the key of
    one space, the key is whitespace only and not empty, yet the dry run
    plans one space and the real upload resolves the base name, which is
    that same space. *)
Lemma blank_key_equal_to_base_name_agrees :
  ~ (forall (w : World) (local_path k : string),
        k <> EmptyString -> all_space k = true ->
        planned_key w local_path (Some k)
        <> resolved_key w local_path (Some k)).
Proof.
  intros Hclaim.
  assert (Hne : " " <> EmptyString) by discriminate.
  apply (Hclaim w_ok " " " " Hne eq_refl).
  reflexivity.
Qed.

End Witnesses.


(** ** Facts about the readers of a trace *)

Section TraceFacts.

Import Trace Calls.

Lemma printed_app (a b : list Event) :
  printed (a ++ b) = (printed a ++ printed b)%list.
Proof.
  induction a as [|ev a IH]; [reflexivity|].
  destruct ev; simpl; rewrite IH; reflexivity.
Qed.

Lemma put_calls_app (a b : list Event) :
  put_calls (a ++ b) = (put_calls a ++ put_calls b)%list.
Proof.
  induction a as [|ev a IH]; [reflexivity|].
  destruct ev; simpl; rewrite IH; reflexivity.
Qed.

Lemma upload_calls_app (a b : list Event) :
  upload_calls (a ++ b) = (upload_calls a ++ upload_calls b)%list.
Proof.
  induction a as [|ev a IH]; [reflexivity|].
  destruct ev; simpl; rewrite IH; reflexivity.
Qed.

Lemma client_configs_app (a b : list Event) :
  client_configs (a ++ b) = (client_configs a ++ client_configs b)%list.
Proof.
  induction a as [|ev a IH]; [reflexivity|].
  destruct ev; simpl; rewrite IH; reflexivity.
Qed.

Lemma list_calls_app (a b : list Event) :
  list_calls (a ++ b) = (list_calls a ++ list_calls b)%list.
Proof.
  induction a as [|ev a IH]; [reflexivity|].
  destruct ev; simpl; rewrite IH; reflexivity.
Qed.

Lemma opened_app (a b : list Event) :
  opened (a ++ b) = (opened a ++ opened b)%list.
Proof.
  induction a as [|ev a IH]; [reflexivity|].
  destruct ev; simpl; rewrite IH; reflexivity.
Qed.

(** The last line printed by a trace that ends with a print. *)
Lemma last_printed_snoc (a : list Event) (line : string) :
  last (printed (a ++ [EvPrint line])) = Some line.
Proof. rewrite printed_app. simpl. apply last_snoc. Qed.

(** Printing changes none of the other readings. *)
Lemma readers_of_prints (lines : list string) :
  printed (List.map EvPrint lines) = lines /\
  put_calls (List.map EvPrint lines) = [] /\
  upload_calls (List.map EvPrint lines) = [] /\
  client_configs (List.map EvPrint lines) = [] /\
  list_calls (List.map EvPrint lines) = [] /\
  opened (List.map EvPrint lines) = [].
Proof.
  induction lines as [|l lines (Hp & Hput & Hup & Hc & Hl & Ho)];
    simpl; [repeat split|].
  rewrite Hp. repeat split; assumption.
Qed.

End TraceFacts.

(** ** Further facts about [upload_file_to_cos] *)

Section UploadRuns.

Import PyStr Uploader Trace Calls Spec.

Variable w : World.
Variables bucket_name region secret_id secret_key local_path : string.
Variable key : option string.
Variable storage_class : string.
Variable content_type : option string.
Variables part_size_mb max_threads : Z.
Variable enable_md5 : bool.
Variables acl token : option string.

Local Abbreviation config_of_args :=
  {| Region := region; SecretId := secret_id;
     SecretKey := secret_key; Token := token |}.
Local Abbreviation the_upload :=
  (upload_file_to_cos w bucket_name region secret_id secret_key local_path
     key storage_class content_type part_size_mb max_threads enable_md5
     acl token).

(** A run from any state is the run from the fresh state, its events
    appended to those already there; the open handles are as before. *)
Lemma upload_frame (s : State) :
  the_upload s =
    (fst (the_upload initial_state),
     {| trace := (trace s ++ trace (snd (the_upload initial_state)))%list;
        handles := handles s |}).
Proof.
  destruct s as [tr hs].
  upload_paths; rewrite <- ?app_assoc, ?app_nil_r; try reflexivity;
    match goal with
    | H : String.eqb ?p ?p = false |- _ =>
        rewrite String.eqb_refl in H; discriminate H
    end.
Qed.

(** X1. One call of [upload_file_to_cos] builds at most one client and makes
    at most one transfer call in all: never [put_object] and [upload_file]
    both, never one of them twice (nothing is retried), whatever the
    world answers. *)
Theorem upload_at_most_one_transfer :
  (length (client_configs (trace (snd (the_upload initial_state)))) <= 1)%nat /\
  (length (put_calls (trace (snd (the_upload initial_state))))
   + length (upload_calls (trace (snd (the_upload initial_state)))) <= 1)%nat.
Proof.
  upload_paths; split; simpl; lia.
Qed.

(** X2. A transfer call is made only after the path passed the [isfile]
    test, the SDK built a client and [getsize] answered. *)
Theorem upload_transfer_needs_file_client_size :
  put_calls (trace (snd (the_upload initial_state))) <> [] \/
  upload_calls (trace (snd (the_upload initial_state))) <> [] ->
  isfile w local_path = true /\
  (exists client, sdk_client w config_of_args = Ok client) /\
  (exists size, getsize w local_path = Ok size).
Proof.
  unfold upload_file_to_cos. unfold_prog. simpl.
  destruct (isfile w local_path); simpl; [|intros [H|H]; congruence].
  destruct (sdk_client w _) as [client|e]; simpl; [|intros [H|H]; congruence].
  destruct (getsize w local_path) as [size|e]; simpl;
    [|intros [H|H]; congruence].
  intros _. repeat split; eauto.
Qed.

(** X3. When the SDK cannot build the client, or [getsize] fails, the
    exception raised there is the outcome of [upload_file_to_cos]; the
    client construction is the only call made: no file is opened and
    nothing is transferred. *)
Theorem upload_fails_before_transfer (e : exn) :
  isfile w local_path = true ->
  sdk_client w config_of_args = Raise e \/
  ((exists client, sdk_client w config_of_args = Ok client) /\
   getsize w local_path = Raise e) ->
  the_upload initial_state =
    (Raise e, {| trace := [EvCreateClient config_of_args]; handles := [] |}).
Proof.
  intros Hfile Hfail. unfold upload_file_to_cos. rewrite Hfile.
  unfold_prog. simpl.
  destruct Hfail as [-> | [[client ->] ->]]; reflexivity.
Qed.

(** X4. On the direct path, when [open] raises, that exception is the
    outcome; [put_object] is not called and no handle is left open. *)
Theorem upload_open_failure (client : CosS3Client) (size : Z) (e : exn) :
  isfile w local_path = true ->
  sdk_client w config_of_args = Ok client ->
  getsize w local_path = Ok size ->
  size <= 5 * 1024 * 1024 ->
  open_rb w local_path = Some e ->
  the_upload initial_state =
    (Raise e, {| trace := [EvCreateClient config_of_args; EvOpen local_path];
                 handles := [] |}).
Proof.
  intros Hfile Hclient Hsize Hle Hopen.
  unfold upload_file_to_cos. rewrite Hfile. unfold_prog. simpl.
  rewrite Hclient, Hsize. unfold SMALL_FILE_THRESHOLD.
  apply Z.leb_le in Hle. rewrite Hle, Hopen. reflexivity.
Qed.

(** X5. On the multipart path the function never opens the file itself:
    the only calls are the client construction and one [upload_file], and
    the outcome is the resolved key when that call returns and its
    exception when it raises. *)
Theorem upload_multipart_outcome (client : CosS3Client) (size : Z) :
  isfile w local_path = true ->
  sdk_client w config_of_args = Ok client ->
  getsize w local_path = Ok size ->
  5 * 1024 * 1024 < size ->
  exists a,
    trace (snd (the_upload initial_state)) =
      [EvCreateClient config_of_args; EvUploadFile a] /\
    uf_Bucket a = bucket_name /\
    uf_LocalFilePath a = local_path /\
    uf_EnableMD5 a = enable_md5 /\
    opened (trace (snd (the_upload initial_state))) = [] /\
    fst (the_upload initial_state) =
      match upload_file client a with
      | Ok _ => Ok (key_of key (basename w local_path))
      | Raise e => Raise e
      end.
Proof.
  intros Hfile Hclient Hsize Hgt.
  unfold upload_file_to_cos. rewrite Hfile. unfold_prog. simpl.
  rewrite Hclient, Hsize. unfold SMALL_FILE_THRESHOLD.
  apply Z.leb_gt in Hgt. rewrite Hgt. simpl.
  rewrite resolved_key_spec.
  eexists. destruct (upload_file client _) eqn:Hup; simpl;
    (repeat split; try reflexivity); simpl; rewrite Hup; reflexivity.
Qed.

(** X6. Every [put_object] call sends the bucket, the open file of
    [local_path] and the storage class as given; the ACL is sent only when
    it is a non-empty string: an absent or empty [acl] leaves the entry
    out. *)
Theorem put_object_arguments :
  Forall (fun extra =>
            po_Bucket extra = bucket_name /\
            po_Body extra = local_path /\
            po_StorageClass extra = storage_class /\
            (acl = None \/ acl = Some EmptyString -> po_ACL extra = None) /\
            (forall a, acl = Some a -> a <> EmptyString ->
                       po_ACL extra = Some a))
         (put_calls (trace (snd (the_upload initial_state)))).
Proof.
  assert (Hacl :
    (acl = None \/ acl = Some EmptyString ->
     (if truthy_opt acl then acl else None) = None) /\
    (forall a, acl = Some a -> a <> EmptyString ->
               (if truthy_opt acl then acl else None) = Some a)).
  { split.
    - intros [-> | ->]; reflexivity.
    - intros a -> Ha. destruct a; [congruence | reflexivity]. }
  upload_paths; repeat constructor; simpl; apply Hacl.
Qed.

(** X7. The file is opened at most once, and only [local_path]; whenever it
    was opened and the open succeeded, it has been closed by the end. *)
Theorem upload_opens_only_local_path :
  (opened (trace (snd (the_upload initial_state))) = [] \/
   opened (trace (snd (the_upload initial_state))) = [local_path]) /\
  (open_rb w local_path = None ->
   closed (trace (snd (the_upload initial_state)))
   = opened (trace (snd (the_upload initial_state)))).
Proof.
  upload_paths; split; auto; intros H; try reflexivity; discriminate H.
Qed.

End UploadRuns.

(** ** Further facts about the uploader's [parse_args] and [main] *)

Section MainRuns.

Import PyStr Uploader Trace Calls Spec.

Variable w : World.
Variable cl : CommandLine.

(** The call [main] makes for the namespace [args]. *)
Local Abbreviation upload_of args :=
  (upload_file_to_cos w
     (the_str (args_bucket args)) (the_str (args_region args))
     (the_str (args_secret_id args)) (the_str (args_secret_key args))
     (args_local_path args) (args_key args) (args_storage_class args)
     (args_content_type args) (args_part_size args) (args_threads args)
     (args_md5 args) (args_acl args) (args_token args)).

(** The six lines a real run prints before it uploads. *)
Local Abbreviation header_of args :=
  [EvPrint "Tencent COS Upload";
   EvPrint (repeat "=" 40);
   EvPrint ("Bucket: " ++ fmt_opt (args_bucket args));
   EvPrint ("Region: " ++ fmt_opt (args_region args));
   EvPrint ("Key: " ++ planned_key w (args_local_path args) (args_key args));
   EvPrint EmptyString].

(** [parse_args] makes no call: it answers the same in every state and
    leaves the state as it is. *)
Lemma parse_args_frame (s : State) :
  parse_args w cl s = (fst (parse_args w cl initial_state), s).
Proof.
  unfold parse_args. destruct (missing_fields _); reflexivity.
Qed.

(** A real run, in any state, by the outcome of the upload and, when the
    upload returns, by whether the completion line can be printed. *)
Lemma main_real_run (s : State) (args : Namespace) :
  parse_args w cl initial_state = (Ok args, initial_state) ->
  args_dry_run args = false ->
  main w cl s =
    let tr := (trace s ++ header_of args
               ++ trace (snd (upload_of args initial_state)))%list in
    match fst (upload_of args initial_state) with
    | Ok obj_key =>
        match stdout_encode_error w complete_line with
        | None =>
            (Ok 0, {| trace := (tr ++ [EvPrint complete_line;
                                       EvPrint ("Object Key: " ++ obj_key)])%list;
                      handles := handles s |})
        | Some msg =>
            (Ok 1, {| trace := (tr ++ [EvPrint ("Upload failed: " ++ msg)])%list;
                      handles := handles s |})
        end
    | Raise (FileNotFoundError m) =>
        (Ok 2, {| trace := (tr ++ [EvPrint ("Error: " ++ m)])%list;
                  handles := handles s |})
    | Raise (Exception m) =>
        (Ok 1, {| trace := (tr ++ [EvPrint ("Upload failed: " ++ m)])%list;
                  handles := handles s |})
    | Raise e =>
        (Raise e, {| trace := tr; handles := handles s |})
    end.
Proof.
  intros Hparse Hdry. unfold main.
  unfold mbind at 1, M_bind at 1, bind at 1.
  rewrite parse_args_frame, Hparse. cbn [fst]. rewrite Hdry.
  unfold_prog. cbn [trace handles].
  rewrite upload_frame. cbn [trace handles fst snd].
  destruct (fst (upload_of args initial_state)) as [k|[m|m|m|n|]];
    cbn [exn_str trace handles]; rewrite <- ?app_assoc; try reflexivity.
  destruct (stdout_encode_error w complete_line) as [msg|];
    cbn [exn_str trace handles]; rewrite <- ?app_assoc; reflexivity.
Qed.

(** X8. In a real run, what [main] returns follows from the outcome of
    [upload_file_to_cos] and from the console: when the upload returns,
    [main] returns 0 if the completion line can be printed and 1 if that
    print raises (it is inside the [try]); when the upload raises
    [FileNotFoundError], from its own test or from anything it calls,
    [main] returns 2; for any other [Exception] it returns 1; an exception
    that is not an [Exception] leaves [main]. *)
Theorem main_exit_by_upload_outcome (args : Namespace) :
  parse_args w cl initial_state = (Ok args, initial_state) ->
  args_dry_run args = false ->
  fst (main w cl initial_state) =
    match fst (upload_of args initial_state) with
    | Ok _ =>
        match stdout_encode_error w complete_line with
        | None => Ok 0
        | Some _ => Ok 1
        end
    | Raise (FileNotFoundError _) => Ok 2
    | Raise (Exception _) => Ok 1
    | Raise e => Raise e
    end.
Proof.
  intros Hparse Hdry.
  rewrite (main_real_run initial_state args Hparse Hdry).
  destruct (fst (upload_of args initial_state)) as [k|[m|m|m|n|]];
    try reflexivity.
  destruct (stdout_encode_error w complete_line); reflexivity.
Qed.

(** X9. A real run on an existing file whose SDK calls succeed has made its
    transfer call when it comes to print the completion line.  When
    standard output can encode that line, the process exits with status 0
    and its last two lines are the completion line and the object key,
    which is the resolved key.  When it cannot, the print raises inside the
    [try]: the last line is [Upload failed:] with the encoding error and
    the process exits with status 1, although the file was uploaded. *)
Theorem main_success_prints_object_key
    (args : Namespace) (client : CosS3Client) (size : Z) :
  parse_args w cl initial_state = (Ok args, initial_state) ->
  args_dry_run args = false ->
  isfile w (cl_local_path cl) = true ->
  (forall cfg, sdk_client w cfg = Ok client) ->
  getsize w (cl_local_path cl) = Ok size ->
  open_rb w (cl_local_path cl) = None ->
  (forall extra, put_object client extra = Ok tt) ->
  (forall a, upload_file client a = Ok tt) ->
  (length (put_calls (snd (run_process (main w cl))))
   + length (upload_calls (snd (run_process (main w cl)))) = 1)%nat /\
  (stdout_encode_error w complete_line = None ->
   fst (run_process (main w cl)) = 0 /\
   exists before,
     printed (snd (run_process (main w cl))) =
       List.app before
         [complete_line;
          "Object Key: " ++ key_of (cl_key cl) (basename w (cl_local_path cl))]) /\
  (forall msg,
     stdout_encode_error w complete_line = Some msg ->
     fst (run_process (main w cl)) = 1 /\
     last (printed (snd (run_process (main w cl))))
     = Some ("Upload failed: " ++ msg)).
Proof.
  intros Hparse Hdry Hfile Hclient Hsize Hopen Hput Hup.
  destruct (parse_args_inv _ _ _ _ _ Hparse) as (Hargs & _ & _).
  assert (Hpath : args_local_path args = cl_local_path cl)
    by (rewrite Hargs; reflexivity).
  assert (Hkey : args_key args = cl_key cl) by (rewrite Hargs; reflexivity).
  assert (Hrun :
    fst (upload_of args initial_state)
    = Ok (key_of (cl_key cl) (basename w (cl_local_path cl))) /\
    (length (put_calls (trace (snd (upload_of args initial_state))))
     + length (upload_calls (trace (snd (upload_of args initial_state))))
     = 1)%nat).
  { rewrite <- resolved_key_spec.
    unfold upload_file_to_cos. rewrite Hpath, Hkey, Hfile. unfold_prog. simpl.
    rewrite Hclient, Hsize.
    destruct (size <=? SMALL_FILE_THRESHOLD).
    - rewrite Hopen. simpl. rewrite Hput. split; reflexivity.
    - simpl. rewrite Hup. split; reflexivity. }
  destruct Hrun as [Hrun Hone].
  unfold run_process.
  rewrite (main_real_run initial_state args Hparse Hdry), Hrun.
  cbv zeta.
  destruct (stdout_encode_error w complete_line) as [msg|] eqn:Hline;
    cbn [fst snd exit_status trace].
  - split.
    { rewrite !put_calls_app, !upload_calls_app. cbn [put_calls upload_calls app].
      rewrite !app_nil_r. exact Hone. }
    split; [discriminate|].
    intros msg' Hmsg. inversion Hmsg; subst. split; [reflexivity|].
    apply last_printed_snoc.
  - split.
    { rewrite !put_calls_app, !upload_calls_app. cbn [put_calls upload_calls app].
      rewrite !app_nil_r. exact Hone. }
    split; [|discriminate].
    intros _. split; [reflexivity|].
    eexists. rewrite printed_app. reflexivity.
Qed.

(** When [parse_args] raises, [main] passes the exception on and does
    nothing else. *)
Lemma main_parse_failure (s : State) (e : exn) :
  fst (parse_args w cl initial_state) = Raise e ->
  main w cl s = (Raise e, s).
Proof.
  intros Hfst. unfold main. unfold mbind at 1, M_bind at 1, bind at 1.
  rewrite parse_args_frame, Hfst. reflexivity.
Qed.

(** The calls of a real run are those of its upload: the rest is
    printing. *)
Lemma main_real_calls (args : Namespace) :
  parse_args w cl initial_state = (Ok args, initial_state) ->
  args_dry_run args = false ->
  client_configs (snd (run_process (main w cl)))
  = client_configs (trace (snd (upload_of args initial_state))) /\
  put_calls (snd (run_process (main w cl)))
  = put_calls (trace (snd (upload_of args initial_state))) /\
  upload_calls (snd (run_process (main w cl)))
  = upload_calls (trace (snd (upload_of args initial_state))).
Proof.
  intros Hparse Hdry. unfold run_process.
  rewrite (main_real_run initial_state args Hparse Hdry). cbv zeta.
  destruct (fst (upload_of args initial_state)) as [k|[m|m|m|n|]];
    try destruct (stdout_encode_error w complete_line) as [msg|];
    cbn [fst snd trace];
    rewrite ?client_configs_app, ?put_calls_app, ?upload_calls_app;
    simpl; rewrite ?app_nil_r; repeat split.
Qed.

(** X10. Exit status 2 does not always mean that nothing was called: when
    the path passes the [isfile] test but [open] then raises
    [FileNotFoundError] (the file vanished), the process exits with status
    2 after the client was built, and prints that error. *)
Theorem main_late_not_found_exits_2
    (args : Namespace) (client : CosS3Client) (size : Z) (m : string) :
  parse_args w cl initial_state = (Ok args, initial_state) ->
  args_dry_run args = false ->
  isfile w (cl_local_path cl) = true ->
  (forall cfg, sdk_client w cfg = Ok client) ->
  getsize w (cl_local_path cl) = Ok size ->
  size <= 5 * 1024 * 1024 ->
  open_rb w (cl_local_path cl) = Some (FileNotFoundError m) ->
  fst (run_process (main w cl)) = 2 /\
  length (client_configs (snd (run_process (main w cl)))) = 1%nat /\
  put_calls (snd (run_process (main w cl))) = [] /\
  last (printed (snd (run_process (main w cl)))) = Some ("Error: " ++ m).
Proof.
  intros Hparse Hdry Hfile Hclient Hsize Hle Hopen.
  destruct (parse_args_inv _ _ _ _ _ Hparse) as (Hargs & _ & _).
  assert (Hpath : args_local_path args = cl_local_path cl)
    by (rewrite Hargs; reflexivity).
  assert (Hrun : exists cfg,
    upload_of args initial_state =
      (Raise (FileNotFoundError m),
       {| trace := [EvCreateClient cfg; EvOpen (cl_local_path cl)];
          handles := [] |})).
  { unfold upload_file_to_cos. rewrite Hpath, Hfile. unfold_prog. simpl.
    rewrite Hclient, Hsize. unfold SMALL_FILE_THRESHOLD.
    apply Z.leb_le in Hle. rewrite Hle, Hopen. eexists. reflexivity. }
  destruct Hrun as [cfg Hrun].
  destruct (main_real_calls args Hparse Hdry) as (Hc & Hp & _).
  rewrite Hc, Hp. unfold run_process.
  rewrite (main_real_run initial_state args Hparse Hdry), Hrun.
  cbn [fst snd exit_status trace]. repeat split.
Qed.


(** X12. The uploader's [main] leaves no file handle open behind it: the
    open handles after it are those before it, on every path. *)
Theorem main_leaves_no_handle (s : State) :
  handles (snd (main w cl s)) = handles s.
Proof.
  destruct (fst (parse_args w cl initial_state)) as [args|e] eqn:Hfst.
  - assert (Hparse : parse_args w cl initial_state = (Ok args, initial_state))
      by (rewrite parse_args_frame, Hfst; reflexivity).
    assert (Hs : parse_args w cl s = (Ok args, s))
      by (rewrite parse_args_frame, Hfst; reflexivity).
    destruct (args_dry_run args) eqn:Hdry.
    + rewrite (main_dry_run _ _ _ _ Hs Hdry). reflexivity.
    + rewrite (main_real_run s args Hparse Hdry). cbv zeta.
      destruct (fst (upload_of args initial_state)) as [k|[m|m|m|n|]];
        try destruct (stdout_encode_error w complete_line) as [msg|];
        reflexivity.
  - rewrite (main_parse_failure _ _ Hfst). reflexivity.
Qed.

(** X13. In a real run on an existing file exactly one client is built,
    from the region, secret id and secret key that [parse_args] accepted
    (non-empty strings, from the flag when given, else from the
    environment) and from the token, which is the [--token] flag when
    given, else [COS_TOKEN], else absent. *)
Theorem main_client_config (args : Namespace) :
  parse_args w cl initial_state = (Ok args, initial_state) ->
  args_dry_run args = false ->
  isfile w (cl_local_path cl) = true ->
  exists r i k,
    with_getenv w (cl_region cl) "COS_REGION" = Some r /\
    with_getenv w (cl_secret_id cl) "COS_SECRET_ID" = Some i /\
    with_getenv w (cl_secret_key cl) "COS_SECRET_KEY" = Some k /\
    r <> EmptyString /\ i <> EmptyString /\ k <> EmptyString /\
    client_configs (snd (run_process (main w cl))) =
      [{| Region := r; SecretId := i; SecretKey := k;
          Token := match cl_token cl with
                   | Some t => Some t
                   | None => environ w !! "COS_TOKEN"
                   end |}].
Proof.
  intros Hparse Hdry Hfile.
  destruct (parse_args_inv _ _ _ _ _ Hparse) as (Hargs & _ & Hmiss).
  destruct (parse_args_required args Hmiss) as (_ & Hr & Hi & Hk).
  destruct (main_real_calls args Hparse Hdry) as (Hc & _ & _).
  rewrite Hc. clear Hc.
  assert (Hpath : args_local_path args = cl_local_path cl)
    by (rewrite Hargs; reflexivity).
  assert (Hone : client_configs (trace (snd (upload_of args initial_state)))
    = [{| Region := the_str (args_region args);
          SecretId := the_str (args_secret_id args);
          SecretKey := the_str (args_secret_key args);
          Token := args_token args |}]).
  { unfold upload_file_to_cos. rewrite Hpath, Hfile. unfold_prog. simpl.
    repeat world_case; reflexivity. }
  rewrite Hone. rewrite Hargs in Hr, Hi, Hk |- *. simpl in *.
  destruct (with_getenv w (cl_region cl) "COS_REGION") as [[|c r]|];
    try discriminate Hr.
  destruct (with_getenv w (cl_secret_id cl) "COS_SECRET_ID") as [[|c' i]|];
    try discriminate Hi.
  destruct (with_getenv w (cl_secret_key cl) "COS_SECRET_KEY") as [[|c'' k]|];
    try discriminate Hk.
  do 3 eexists. repeat split; discriminate.
Qed.

(** X14. In a real run on an existing file larger than 5 MiB there is one
    [upload_file] call.  It is given the accepted bucket, the local path,
    the resolved key and the [--md5] flag; [PartSize] is 8 when
    [--part-size] is absent and [max(1, p)] for [--part-size p], and
    [MAXThread] is 5 when [--threads] is absent and [max(1, t)] for
    [--threads t]. *)
Theorem main_multipart_arguments
    (args : Namespace) (client : CosS3Client) (size : Z) :
  parse_args w cl initial_state = (Ok args, initial_state) ->
  args_dry_run args = false ->
  isfile w (cl_local_path cl) = true ->
  (forall cfg, sdk_client w cfg = Ok client) ->
  getsize w (cl_local_path cl) = Ok size ->
  5 * 1024 * 1024 < size ->
  exists b,
    with_getenv w (cl_bucket cl) "COS_BUCKET_NAME" = Some b /\
    upload_calls (snd (run_process (main w cl))) =
      [{| uf_Bucket := b;
          uf_LocalFilePath := cl_local_path cl;
          uf_Key := key_of (cl_key cl) (basename w (cl_local_path cl));
          uf_PartSize := match cl_part_size cl with
                         | Some p => Z.max 1 p
                         | None => 8
                         end;
          uf_MAXThread := match cl_threads cl with
                          | Some t => Z.max 1 t
                          | None => 5
                          end;
          uf_EnableMD5 := cl_md5 cl |}].
Proof.
  intros Hparse Hdry Hfile Hclient Hsize Hgt.
  destruct (parse_args_inv _ _ _ _ _ Hparse) as (Hargs & _ & Hmiss).
  destruct (parse_args_required args Hmiss) as (Hb & _ & _ & _).
  destruct (main_real_calls args Hparse Hdry) as (_ & _ & Hu).
  rewrite Hu. clear Hu.
  rewrite Hargs in Hb |- *. simpl in Hb.
  destruct (with_getenv w (cl_bucket cl) "COS_BUCKET_NAME") as [b|] eqn:Hbucket;
    [|discriminate Hb].
  exists b. split; [reflexivity|].
  unfold upload_file_to_cos. simpl. rewrite Hfile. unfold_prog. simpl.
  rewrite Hclient, Hsize. unfold SMALL_FILE_THRESHOLD.
  apply Z.leb_gt in Hgt. rewrite Hgt. simpl.
  rewrite Hbucket, resolved_key_spec. simpl.
  assert (Hp : Z.max 1 (with_default (cl_part_size cl) 8)
               = match cl_part_size cl with Some p => Z.max 1 p | None => 8 end)
    by (destruct (cl_part_size cl); reflexivity).
  assert (Ht : Z.max 1 (with_default (cl_threads cl) 5)
               = match cl_threads cl with Some t => Z.max 1 t | None => 5 end)
    by (destruct (cl_threads cl); reflexivity).
  rewrite Hp, Ht.
  destruct (upload_file client _); reflexivity.
Qed.

End MainRuns.

Section ParseRuns.

Import PyStr Uploader Trace Calls Spec.

Variable w : World.
Variable cl : CommandLine.

(** The value [parse_args] tests for a field: the flag when it is given,
    else the environment variable. *)
Lemma field_of_parsed (f : Required) :
  field_of (parser_parse_args w cl) f =
    match flag_of cl f with
    | Some v => Some v
    | None => environ w !! env_name f
    end.
Proof. destruct f; reflexivity. Qed.

(** The list [missing] names the fields that fail the truth test, in the
    order bucket, region, secret id, secret key. *)
Lemma missing_fields_filter (args : Namespace) :
  missing_fields args =
    List.map label
      (List.filter (fun f => negb (truthy_opt (field_of args f))) all_required).
Proof.
  unfold missing_fields, all_required. simpl.
  destruct (truthy_opt (args_bucket args)),
           (truthy_opt (args_region args)),
           (truthy_opt (args_secret_id args)),
           (truthy_opt (args_secret_key args)); reflexivity.
Qed.

(** X15. [parse_args] returns (the parsed namespace, with no call made)
    exactly when each of bucket, region, secret id and secret key has a
    non-empty value, taken from its flag when the flag is given and from
    its environment variable only when the flag is not given. *)
Theorem parse_args_accepts_iff (s : State) :
  parse_args w cl s = (Ok (parser_parse_args w cl), s) <->
  (forall f, exists v,
      v <> EmptyString /\
      (flag_of cl f = Some v \/
       (flag_of cl f = None /\ environ w !! env_name f = Some v))).
Proof.
  assert (Hfield : forall f,
    truthy_opt (field_of (parser_parse_args w cl) f) = true <->
    exists v, v <> EmptyString /\
      (flag_of cl f = Some v \/
       (flag_of cl f = None /\ environ w !! env_name f = Some v))).
  { intros f. rewrite field_of_parsed.
    destruct (flag_of cl f) as [[|c v]|]; simpl.
    - split; [discriminate|]. intros (v & Hv & [H | [H _]]); congruence.
    - split; [|reflexivity]. intros _. eexists. split; [|left; reflexivity].
      discriminate.
    - destruct (environ w !! env_name f) as [[|c v]|]; simpl.
      + split; [discriminate|]. intros (v & Hv & [H | [_ H]]); congruence.
      + split; [|reflexivity]. intros _. eexists.
        split; [|right; split; reflexivity]. discriminate.
      + split; [discriminate|]. intros (v & Hv & [H | [_ H]]); congruence. }
  unfold parse_args. rewrite missing_fields_filter.
  unfold all_required. cbn [List.filter field_of].
  pose proof (Hfield ReqBucket) as Hb. pose proof (Hfield ReqRegion) as Hr.
  pose proof (Hfield ReqSecretId) as Hi. pose proof (Hfield ReqSecretKey) as Hk.
  cbn [field_of] in Hb, Hr, Hi, Hk.
  split.
  - intros Hok f.
    destruct (truthy_opt (args_bucket (parser_parse_args w cl))) eqn:Eb,
             (truthy_opt (args_region (parser_parse_args w cl))) eqn:Er,
             (truthy_opt (args_secret_id (parser_parse_args w cl))) eqn:Ei,
             (truthy_opt (args_secret_key (parser_parse_args w cl))) eqn:Ek;
      simpl in Hok; unfold_prog; try discriminate Hok.
    destruct f; [apply Hb | apply Hr | apply Hi | apply Hk]; reflexivity.
  - intros Hall.
    rewrite (proj2 Hb (Hall ReqBucket)), (proj2 Hr (Hall ReqRegion)),
            (proj2 Hi (Hall ReqSecretId)), (proj2 Hk (Hall ReqSecretKey)).
    reflexivity.
Qed.

(** X16. Whenever [parse_args] raises, it raises [SystemExit] with the
    prefix followed by the labels, joined by a comma and a space, of
    exactly the fields whose value is absent or empty, each once, in the
    order bucket, region, secret id, secret key; the state is untouched. *)
Theorem parse_args_message_exact (s s' : State) (e : exn) :
  parse_args w cl s = (Raise e, s') ->
  s' = s /\
  e = SystemExit
        ("Missing required configuration: " ++
         join ", "
           (List.map label
              (List.filter
                 (fun f => negb (truthy_opt (field_of (parser_parse_args w cl) f)))
                 all_required))).
Proof.
  unfold parse_args. rewrite <- missing_fields_filter.
  destruct (missing_fields (parser_parse_args w cl)); unfold_prog;
    intros H; inversion H; subst; split; reflexivity.
Qed.

(** X17. A required flag given as the empty string is not rescued by its
    environment variable: [parse_args] raises, and the message names that
    field, whatever the environment holds. *)
Theorem empty_flag_is_missing (f : Required) (s : State) :
  flag_of cl f = Some EmptyString ->
  exists missing,
    parse_args w cl s =
      (Raise (SystemExit ("Missing required configuration: "
                          ++ join ", " missing)), s) /\
    In (label f) missing.
Proof.
  intros Hflag.
  assert (Hfalsy : truthy_opt (field_of (parser_parse_args w cl) f) = false)
    by (rewrite field_of_parsed, Hflag; reflexivity).
  exists (missing_fields (parser_parse_args w cl)).
  assert (Hin : In (label f) (missing_fields (parser_parse_args w cl))).
  { rewrite missing_fields_filter. apply in_map, filter_In.
    split; [destruct f; simpl; auto|]. rewrite Hfalsy. reflexivity. }
  split; [|exact Hin].
  unfold parse_args.
  destruct (missing_fields (parser_parse_args w cl)); [destruct Hin|].
  reflexivity.
Qed.

End ParseRuns.

(** ** Further facts about the lister *)

Section ListerRuns.

Import PyStr Lister Trace Calls.

Variable w : World.

(** Collecting succeeds when every entry has its key, and gives the keys in
    the order of the entries, after those already collected. *)
Lemma collect_keys_all (contents : list (gmap string string))
    (keys objects : list string) :
  Forall2 (fun obj k => obj !! "Key" = Some k) contents keys ->
  collect_keys contents objects = Ok (objects ++ keys)%list.
Proof.
  intros Hall. revert objects.
  induction Hall as [|obj k contents keys Hk _ IH]; intros objects; simpl.
  - rewrite app_nil_r. reflexivity.
  - rewrite Hk, IH, <- app_assoc. reflexivity.
Qed.

(** Collecting raises [KeyError] as soon as one entry lacks its key,
    however many keys were collected before. *)
Lemma collect_keys_missing (contents : list (gmap string string))
    (objects : list string) :
  Exists (fun obj => obj !! "Key" = None) contents ->
  collect_keys contents objects = Raise (Exception "'Key'").
Proof.
  intros Hex. revert objects.
  induction contents as [|obj contents IH]; intros objects.
  - inversion Hex.
  - simpl. destruct (obj !! "Key") as [k|] eqn:Hk; [|reflexivity].
    apply IH. inversion Hex as [? ? Hnone|]; subst; [congruence | assumption].
Qed.

(** Collecting raises nothing but that [KeyError]. *)
Lemma collect_keys_raises (contents : list (gmap string string))
    (objects : list string) (e : exn) :
  collect_keys contents objects = Raise e -> e = Exception "'Key'".
Proof.
  revert objects. induction contents as [|obj contents IH]; intros objects;
    simpl; [discriminate|].
  destruct (obj !! "Key"); [apply IH | congruence].
Qed.

(** Printing the entries prints one line each, in order, and does nothing
    else. *)
Lemma print_objects_run (objs : list string) (s : State) :
  print_objects objs s =
    (Ok tt,
     {| trace := (trace s ++ List.map (fun obj => EvPrint ("  - " ++ obj)) objs)%list;
        handles := handles s |}).
Proof.
  revert s. induction objs as [|obj objs IH]; intros s; simpl.
  - unfold_prog. rewrite app_nil_r. destruct s; reflexivity.
  - unfold_prog. rewrite IH. simpl. rewrite <- app_assoc. reflexivity.
Qed.

Section OneListing.

Variables bucket_name region secret_id secret_key pre : string.

Local Abbreviation config_of_args :=
  {| Region := region; SecretId := secret_id;
     SecretKey := secret_key; Token := None |}.
Local Abbreviation request_of_args :=
  {| lo_Bucket := bucket_name; lo_Prefix := pre;
     lo_Delimiter := EmptyString; lo_MaxKeys := 1000 |}.
Local Abbreviation the_listing :=
  (list_cos_objects w bucket_name region secret_id secret_key pre).

(** A listing from any state is the listing from the fresh state, its
    events appended; no handle is touched. *)
Lemma listing_frame (s : State) :
  the_listing s =
    (fst (the_listing initial_state),
     {| trace := (trace s ++ trace (snd (the_listing initial_state)))%list;
        handles := handles s |}).
Proof.
  destruct s as [tr hs]. unfold list_cos_objects. unfold_prog. simpl.
  destruct (sdk_client w _) as [client|e]; simpl.
  - destruct (list_objects client _) as [response|e]; simpl.
    + destruct (match Contents response with
                | Some contents => collect_keys contents []
                | None => Ok []
                end) as [objs|e]; simpl.
      * rewrite <- ?app_assoc. reflexivity.
      * destruct (is_Exception e); simpl; rewrite <- ?app_assoc; reflexivity.
    + destruct (is_Exception e); simpl; rewrite <- ?app_assoc; reflexivity.
  - destruct (is_Exception e); simpl; rewrite <- ?app_assoc; reflexivity.
Qed.

(** X18. When the client lists entries that all have a key,
    [list_cos_objects] returns exactly those keys, one per entry, in the
    order of the listing. *)
Theorem listing_returns_keys_in_order
    (client : CosS3Client) (response : ListResponse)
    (contents : list (gmap string string)) (keys : list string) (s : State) :
  sdk_client w config_of_args = Ok client ->
  list_objects client request_of_args = Ok response ->
  Contents response = Some contents ->
  Forall2 (fun obj k => obj !! "Key" = Some k) contents keys ->
  fst (the_listing s) = Ok (Some keys) /\
  length keys = length contents.
Proof.
  intros Hclient Hlist Hcontents Hall.
  split; [|symmetry; exact (Forall2_length _ _ _ Hall)].
  unfold list_cos_objects. unfold_prog. simpl.
  rewrite Hclient. simpl. rewrite Hlist. simpl. rewrite Hcontents.
  rewrite (collect_keys_all contents keys [] Hall). reflexivity.
Qed.

(** X19. When one listed entry lacks its key, [list_cos_objects] gives up
    the whole listing: it returns [None], not the keys found before that
    entry, after printing the error. *)
Theorem listing_entry_without_key
    (client : CosS3Client) (response : ListResponse)
    (contents : list (gmap string string)) :
  sdk_client w config_of_args = Ok client ->
  list_objects client request_of_args = Ok response ->
  Contents response = Some contents ->
  Exists (fun obj => obj !! "Key" = None) contents ->
  the_listing initial_state =
    (Ok None,
     {| trace := [EvCreateClient config_of_args;
                  EvListObjects request_of_args;
                  EvPrint "Error listing COS objects: 'Key'"];
        handles := [] |}).
Proof.
  intros Hclient Hlist Hcontents Hex.
  unfold list_cos_objects. unfold_prog. simpl.
  rewrite Hclient. simpl. rewrite Hlist. simpl. rewrite Hcontents.
  rewrite (collect_keys_missing contents [] Hex). reflexivity.
Qed.

(** X20. [list_cos_objects] lets no [Exception] escape: whatever it raises
    is not an [Exception]; and when the SDK raises one, while the client is
    built or while it lists, the function prints the error and returns
    [None]. *)
Theorem listing_catches_exceptions :
  (forall s e, fst (the_listing s) = Raise e -> is_Exception e = false) /\
  (forall e, is_Exception e = true ->
     sdk_client w config_of_args = Raise e ->
     the_listing initial_state =
       (Ok None,
        {| trace := [EvCreateClient config_of_args;
                     EvPrint ("Error listing COS objects: " ++ exn_str e)];
           handles := [] |})) /\
  (forall client e, is_Exception e = true ->
     sdk_client w config_of_args = Ok client ->
     list_objects client request_of_args = Raise e ->
     the_listing initial_state =
       (Ok None,
        {| trace := [EvCreateClient config_of_args;
                     EvListObjects request_of_args;
                     EvPrint ("Error listing COS objects: " ++ exn_str e)];
           handles := [] |})).
Proof.
  split; [|split].
  - intros s e. unfold list_cos_objects. unfold_prog. simpl.
    destruct (sdk_client w _) as [client|e1]; simpl.
    + destruct (list_objects client _) as [response|e2]; simpl.
      * destruct (match Contents response with
                  | Some contents => collect_keys contents []
                  | None => Ok []
                  end) as [objs|e3] eqn:Hkeys; simpl; [discriminate|].
        destruct (is_Exception e3) eqn:H3; simpl; congruence.
      * destruct (is_Exception e2) eqn:H2; simpl; congruence.
    + destruct (is_Exception e1) eqn:H1; simpl; congruence.
  - intros e He Hclient. unfold list_cos_objects. unfold_prog. simpl.
    rewrite Hclient. simpl. rewrite He. reflexivity.
  - intros client e He Hclient Hlist. unfold list_cos_objects. unfold_prog.
    simpl. rewrite Hclient. simpl. rewrite Hlist. simpl. rewrite He.
    reflexivity.
Qed.

(** The calls of a listing: one client construction, then at most one
    [list_objects]; a listing that returns a list prints nothing. *)
Lemma listing_calls :
  let tr := trace (snd (the_listing initial_state)) in
  client_configs tr = [config_of_args] /\
  (list_calls tr = [] \/ list_calls tr = [request_of_args]) /\
  put_calls tr = [] /\ upload_calls tr = [] /\ opened tr = [] /\
  (forall objs, fst (the_listing initial_state) = Ok (Some objs) ->
                printed tr = []).
Proof.
  unfold list_cos_objects. unfold_prog. simpl.
  destruct (sdk_client w _) as [client|e1]; simpl.
  - destruct (list_objects client _) as [response|e2]; simpl.
    + destruct (match Contents response with
                | Some contents => collect_keys contents []
                | None => Ok []
                end) as [objs|e3]; simpl.
      * repeat split; auto.
      * destruct (is_Exception e3); simpl; repeat split; auto; discriminate.
    + destruct (is_Exception e2); simpl; repeat split; auto; discriminate.
  - destruct (is_Exception e1); simpl; repeat split; auto; discriminate.
Qed.

End OneListing.

End ListerRuns.

Section ListerMain.

Import PyStr Lister Trace Calls.

Variable w : World.
Variables DEFAULT_SECRET_ID DEFAULT_SECRET_KEY : string.

(** The configuration and the request [main] lists with. *)
Local Abbreviation main_config :=
  {| Region := getenv w "COS_REGION" "ap-singapore";
     SecretId := getenv w "COS_SECRET_ID" DEFAULT_SECRET_ID;
     SecretKey := getenv w "COS_SECRET_KEY" DEFAULT_SECRET_KEY;
     Token := None |}.
Local Abbreviation main_request :=
  {| lo_Bucket :=
       getenv w "COS_BUCKET_NAME"
         "property-property-cos-website-one-property-1359404038";
     lo_Prefix := EmptyString;
     lo_Delimiter := EmptyString;
     lo_MaxKeys := 1000 |}.
Local Abbreviation main_listing :=
  (list_cos_objects w
     (getenv w "COS_BUCKET_NAME"
        "property-property-cos-website-one-property-1359404038")
     (getenv w "COS_REGION" "ap-singapore")
     (getenv w "COS_SECRET_ID" DEFAULT_SECRET_ID)
     (getenv w "COS_SECRET_KEY" DEFAULT_SECRET_KEY)
     EmptyString).
Local Abbreviation the_main := (main DEFAULT_SECRET_ID DEFAULT_SECRET_KEY w).

(** The eight lines printed before the listing. *)
Local Abbreviation head_lines :=
  ["Tencent COS Configuration Test";
   repeat "=" 40;
   "Bucket: " ++ getenv w "COS_BUCKET_NAME"
                   "property-property-cos-website-one-property-1359404038";
   "Region: " ++ getenv w "COS_REGION" "ap-singapore";
   "Secret ID: " ++ take 8 (getenv w "COS_SECRET_ID" DEFAULT_SECRET_ID) ++ "...";
   EmptyString;
   "Listing objects in root directory (" ++ dquote ++ "/" ++ dquote ++ ")...";
   repeat "-" 40].

(** The lister's [main], by the outcome of its listing and by whether the
    lines that hold a mark can be printed. *)
Lemma lister_main_run :
  the_main initial_state =
    let tr0 := List.app (List.map EvPrint head_lines)
                 (trace (snd (main_listing initial_state))) in
    match fst (main_listing initial_state) with
    | Ok (Some objs) =>
        match stdout_encode_error w (Report.first_line objs) with
        | Some msg => (Raise (Exception msg), {| trace := tr0; handles := [] |})
        | None =>
            let shown :=
              List.app (Report.first_line objs :: Report.object_lines objs)
                [EmptyString] in
            match stdout_encode_error w success_line with
            | Some msg =>
                (Raise (Exception msg),
                 {| trace := List.app tr0 (List.map EvPrint shown);
                    handles := [] |})
            | None =>
                (Ok 0,
                 {| trace :=
                      List.app tr0
                        (List.map EvPrint (List.app shown [success_line]));
                    handles := [] |})
            end
        end
    | Ok None =>
        match stdout_encode_error w failed_line with
        | Some msg => (Raise (Exception msg), {| trace := tr0; handles := [] |})
        | None =>
            (Ok 1,
             {| trace := List.app tr0 (List.map EvPrint [failed_line]);
                handles := [] |})
        end
    | Raise e => (Raise e, {| trace := tr0; handles := [] |})
    end.
Proof.
  unfold main. unfold_prog. cbn [trace handles initial_state].
  rewrite listing_frame. cbn [trace handles fst snd]. cbv zeta.
  destruct (fst (main_listing initial_state)) as [[objs|]|e].
  - destruct objs as [|obj objs]; cbn [Report.first_line Report.object_lines].
    + destruct (stdout_encode_error w empty_line) as [msg|];
        [norm_trace; reflexivity|].
      cbn [trace handles].
      destruct (stdout_encode_error w success_line) as [msg|];
        norm_trace; reflexivity.
    + destruct (stdout_encode_error w (found_line (obj :: objs))) as [msg|];
        [norm_trace; reflexivity|].
      cbn [trace handles]. rewrite print_objects_run.
      destruct (10 <? length (obj :: objs))%nat; cbn [trace handles];
        destruct (stdout_encode_error w success_line) as [msg|];
        norm_trace; reflexivity.
  - destruct (stdout_encode_error w failed_line) as [msg|];
      norm_trace; reflexivity.
  - norm_trace. reflexivity.
Qed.

(** The calls of the lister are those of its listing: the rest is
    printing. *)
Lemma lister_main_calls :
  client_configs (snd (run_process the_main))
  = client_configs (trace (snd (main_listing initial_state))) /\
  list_calls (snd (run_process the_main))
  = list_calls (trace (snd (main_listing initial_state))) /\
  put_calls (snd (run_process the_main))
  = put_calls (trace (snd (main_listing initial_state))) /\
  upload_calls (snd (run_process the_main))
  = upload_calls (trace (snd (main_listing initial_state))) /\
  opened (snd (run_process the_main))
  = opened (trace (snd (main_listing initial_state))).
Proof.
  pose proof (readers_of_prints head_lines) as (_ & Hp1 & Hu1 & Hc1 & Hl1 & Ho1).
  unfold run_process. rewrite lister_main_run. cbv zeta.
  destruct (fst (main_listing initial_state)) as [[objs|]|e];
    try destruct (stdout_encode_error w (Report.first_line objs)) as [msg|];
    try destruct (stdout_encode_error w success_line) as [msg'|];
    try destruct (stdout_encode_error w failed_line) as [msg''|];
    cbn [fst snd trace];
    rewrite ?client_configs_app, ?list_calls_app, ?put_calls_app,
            ?upload_calls_app, ?opened_app;
    rewrite Hp1, Hu1, Hc1, Hl1, Ho1;
    try match goal with
        | |- context [client_configs (List.map EvPrint ?lines)] =>
            pose proof (readers_of_prints lines)
              as (_ & Hp2 & Hu2 & Hc2 & Hl2 & Ho2);
            rewrite Hp2, Hu2, Hc2, Hl2, Ho2
        end;
    cbn [app]; rewrite ?app_nil_r; repeat split.
Qed.

(** X21. When the SDK raises an [Exception], while the client is built or
    while it lists, the lister prints the error and the process ends with
    status 1.  The failure line follows the error when standard output can
    encode its cross; when it cannot, that print raises outside any [try]
    and the error is the last line printed. *)
Theorem lister_failure_exits_1 (e : exn) :
  is_Exception e = true ->
  sdk_client w main_config = Raise e \/
  (exists client,
      sdk_client w main_config = Ok client /\
      list_objects client main_request = Raise e) ->
  fst (run_process the_main) = 1 /\
  (stdout_encode_error w failed_line = None ->
   exists before,
     printed (snd (run_process the_main)) =
       List.app before
         ["Error listing COS objects: " ++ exn_str e; failed_line]) /\
  (stdout_encode_error w failed_line <> None ->
   last (printed (snd (run_process the_main)))
   = Some ("Error listing COS objects: " ++ exn_str e)).
Proof.
  intros He Hfail.
  assert (Hrun : exists calls,
    main_listing initial_state =
      (Ok None,
       {| trace := List.app calls
                     [EvPrint ("Error listing COS objects: " ++ exn_str e)];
          handles := [] |})).
  { unfold list_cos_objects. unfold_prog. simpl.
    destruct Hfail as [-> | (client & -> & Hlist)]; simpl.
    - rewrite He. exists [EvCreateClient main_config]. reflexivity.
    - rewrite Hlist. simpl. rewrite He.
      exists [EvCreateClient main_config; EvListObjects main_request].
      reflexivity. }
  destruct Hrun as [calls Hrun].
  unfold run_process. rewrite lister_main_run, Hrun. cbv zeta.
  destruct (stdout_encode_error w failed_line) as [msg|];
    cbn [fst snd exit_status trace].
  - split; [reflexivity|]. split; [discriminate|]. intros _.
    rewrite app_assoc. apply last_printed_snoc.
  - split; [reflexivity|]. split; [|congruence]. intros _.
    exists (List.app head_lines (printed calls)).
    rewrite !printed_app, (proj1 (readers_of_prints head_lines)).
    simpl. rewrite <- !app_assoc. reflexivity.
Qed.

(** X22. When the listing returns a non-empty list and standard output can
    encode the check mark of the count line and of the success line, the
    lister prints, after its eight header lines, the count of all objects,
    then one line for each of the first ten objects only, then, when there
    are more than ten, one line with the number of objects left out, then
    an empty line and the success line; it exits with status 0.  When the
    count line cannot be encoded, its print raises outside any [try]:
    nothing but the header is printed and the process ends with
    status 1. *)
Theorem lister_display_truncated (objs : list string) :
  fst (main_listing initial_state) = Ok (Some objs) ->
  objs <> [] ->
  (stdout_encode_error w (found_line objs) = None ->
   stdout_encode_error w success_line = None ->
   fst (run_process the_main) = 0 /\
   printed (snd (run_process the_main)) =
     List.app head_lines
       (found_line objs
        :: List.app (List.map (fun obj => "  - " ++ obj) (List.firstn 10 objs))
             (List.app
                (if (10 <? length objs)%nat
                 then ["  ... and " ++ of_nat (length objs - 10)
                       ++ " more objects"]
                 else [])
                [EmptyString; success_line]))) /\
  (stdout_encode_error w (found_line objs) <> None ->
   fst (run_process the_main) = 1 /\
   printed (snd (run_process the_main)) = head_lines).
Proof.
  intros Hlist Hne.
  pose proof (listing_calls w
    (getenv w "COS_BUCKET_NAME"
       "property-property-cos-website-one-property-1359404038")
    (getenv w "COS_REGION" "ap-singapore")
    (getenv w "COS_SECRET_ID" DEFAULT_SECRET_ID)
    (getenv w "COS_SECRET_KEY" DEFAULT_SECRET_KEY)
    EmptyString) as (_ & _ & _ & _ & _ & Hquiet).
  specialize (Hquiet objs Hlist).
  destruct objs as [|obj objs]; [congruence|].
  unfold run_process. rewrite lister_main_run, Hlist. cbv zeta.
  cbn [Report.first_line Report.object_lines].
  split.
  - intros Hfound Hsuccess. rewrite Hfound, Hsuccess.
    cbn [fst snd exit_status trace]. split; [reflexivity|].
    rewrite !printed_app, Hquiet.
    rewrite (proj1 (readers_of_prints head_lines)).
    rewrite (proj1 (readers_of_prints _)).
    cbn [app]. rewrite <- ?app_assoc. reflexivity.
  - intros Hfound.
    destruct (stdout_encode_error w (found_line (obj :: objs))) as [msg|];
      [|congruence].
    cbn [fst snd exit_status trace]. split; [reflexivity|].
    rewrite !printed_app, Hquiet.
    rewrite (proj1 (readers_of_prints head_lines)).
    apply app_nil_r.
Qed.

(** X23. The lister only reads: on every path it builds one client, from
    the region, secret id and secret key of the environment (or their
    fallbacks) and never with a token, makes at most one [list_objects]
    call, for the bucket with an empty prefix, no delimiter and at most
    1000 keys, and never calls [put_object] or [upload_file] nor opens a
    file. *)
Theorem lister_only_lists :
  client_configs (snd (run_process the_main)) = [main_config] /\
  (list_calls (snd (run_process the_main)) = [] \/
   list_calls (snd (run_process the_main)) = [main_request]) /\
  put_calls (snd (run_process the_main)) = [] /\
  upload_calls (snd (run_process the_main)) = [] /\
  opened (snd (run_process the_main)) = [].
Proof.
  pose proof (listing_calls w
    (getenv w "COS_BUCKET_NAME"
       "property-property-cos-website-one-property-1359404038")
    (getenv w "COS_REGION" "ap-singapore")
    (getenv w "COS_SECRET_ID" DEFAULT_SECRET_ID)
    (getenv w "COS_SECRET_KEY" DEFAULT_SECRET_KEY)
    EmptyString) as (Hc & Hl & Hp & Hu & Ho & _).
  cbv zeta in Hc, Hl, Hp, Hu, Ho.
  destruct lister_main_calls as (Hc' & Hl' & Hp' & Hu' & Ho').
  rewrite Hc', Hl', Hp', Hu', Ho'.
  repeat split; assumption.
Qed.

(** X24. The exit status of the lister, by what [list_cos_objects]
    returns: when it returns a list, empty or not, the status is 0 if
    standard output can encode both the first report line and the success
    line, and 1 if one of these prints raises; when it returns [None], the
    status is 1 whether or not the failure line can be printed. *)
Theorem lister_exit_by_listing :
  (forall objs,
      fst (main_listing initial_state) = Ok (Some objs) ->
      fst (run_process the_main) =
        match stdout_encode_error w
                match objs with
                | [] => empty_line
                | _ :: _ => found_line objs
                end,
              stdout_encode_error w success_line with
        | None, None => 0
        | _, _ => 1
        end) /\
  (fst (main_listing initial_state) = Ok None ->
   fst (run_process the_main) = 1).
Proof.
  split.
  - intros objs Hlist. unfold run_process.
    rewrite lister_main_run, Hlist. cbv zeta.
    change (Report.first_line objs)
      with (match objs with [] => empty_line | _ :: _ => found_line objs end).
    destruct (stdout_encode_error w _) as [msg|]; [reflexivity|].
    destruct (stdout_encode_error w success_line) as [msg|]; reflexivity.
  - intros Hlist. unfold run_process.
    rewrite lister_main_run, Hlist. cbv zeta.
    destruct (stdout_encode_error w failed_line) as [msg|]; reflexivity.
Qed.

End ListerMain.

(** ** The further theorems at concrete inputs *)

Section MoreWitnesses.

Import PyStr Uploader Trace Calls Spec Examples Worlds.

(** The call of [upload_file_to_cos] the examples make, with an ACL. *)
Local Abbreviation upload_acl w local_path acl :=
  (upload_file_to_cos w "example-1234567890" "ap-singapore" "AKIDexample"
     "SECRETexample" local_path None "STANDARD" None 8 5 false acl None).

Local Abbreviation example_config :=
  {| Region := "ap-singapore"; SecretId := "AKIDexample";
     SecretKey := "SECRETexample"; Token := None |}.

(** The upload of [dist/app.zip] transfers, so the file, the client and the
    size were there. *)
Lemma upload_transfer_needs_file_client_size_witness :
  isfile w_ok "dist/app.zip" = true /\
  (exists client, sdk_client w_ok example_config = Ok client) /\
  (exists size, getsize w_ok "dist/app.zip" = Ok size).
Proof.
  apply (upload_transfer_needs_file_client_size w_ok "example-1234567890"
           "ap-singapore" "AKIDexample" "SECRETexample" "dist/app.zip"
           None "STANDARD" None 8 5 false None None).
  left. vm_compute. discriminate.
Defined.

(** No client can be built: the only call is the attempt to build one. *)
Lemma upload_fails_before_transfer_witness :
  upload w_noclient "dist/app.zip" None None 8 5 initial_state =
    (Raise (Exception "invalid credentials"),
     {| trace := [EvCreateClient example_config]; handles := [] |}).
Proof.
  exact (upload_fails_before_transfer w_noclient "example-1234567890"
           "ap-singapore" "AKIDexample" "SECRETexample" "dist/app.zip"
           None "STANDARD" None 8 5 false None None
           (Exception "invalid credentials") eq_refl (or_introl eq_refl)).
Defined.

(** The file vanished before [open]: no [put_object], no handle. *)
Lemma upload_open_failure_witness :
  upload w_vanish "exact.bin" None None 8 5 initial_state =
    (Raise (FileNotFoundError "[Errno 2] No such file or directory: exact.bin"),
     {| trace := [EvCreateClient example_config; EvOpen "exact.bin"];
        handles := [] |}).
Proof.
  refine (upload_open_failure w_vanish "example-1234567890"
            "ap-singapore" "AKIDexample" "SECRETexample" "exact.bin"
            None "STANDARD" None 8 5 false None None
            (good_client None) (5 * 1024 * 1024)
            (FileNotFoundError "[Errno 2] No such file or directory: exact.bin")
            eq_refl eq_refl eq_refl _ eq_refl).
  vm_compute. discriminate.
Defined.

(** A 20 MiB file over a failing transport: the exception of [upload_file]
    comes out, and the file was never opened. *)
Lemma upload_multipart_outcome_witness :
  exists a,
    trace (snd (upload w_fail "video.mp4" None None 8 5 initial_state)) =
      [EvCreateClient example_config; EvUploadFile a] /\
    uf_Bucket a = "example-1234567890" /\
    uf_LocalFilePath a = "video.mp4" /\
    uf_EnableMD5 a = false /\
    opened (trace (snd (upload w_fail "video.mp4" None None 8 5 initial_state)))
    = [] /\
    fst (upload w_fail "video.mp4" None None 8 5 initial_state)
    = Raise (Exception "connection reset").
Proof.
  refine (upload_multipart_outcome w_fail "example-1234567890"
            "ap-singapore" "AKIDexample" "SECRETexample" "video.mp4"
            None "STANDARD" None 8 5 false None None
            failing_client (20 * 1024 * 1024) eq_refl eq_refl eq_refl _).
  vm_compute. reflexivity.
Defined.

(** With [--acl public-read] the ACL is sent. *)
Lemma put_object_arguments_witness :
  Forall (fun extra => po_ACL extra = Some "public-read")
    (put_calls (trace (snd (upload_acl w_ok "dist/app.zip"
                              (Some "public-read") initial_state)))).
Proof.
  eapply Forall_impl.
  - exact (put_object_arguments w_ok "example-1234567890"
             "ap-singapore" "AKIDexample" "SECRETexample" "dist/app.zip"
             None "STANDARD" None 8 5 false (Some "public-read") None).
  - intros extra (_ & _ & _ & _ & Hacl).
    apply (Hacl "public-read" eq_refl). discriminate.
Defined.

(** A direct upload opens and closes [exact.bin], and nothing else. *)
Lemma upload_opens_only_local_path_witness :
  open_rb w_ok "exact.bin" = None /\
  closed (trace (snd (upload w_ok "exact.bin" None None 8 5 initial_state)))
  = opened (trace (snd (upload w_ok "exact.bin" None None 8 5 initial_state))).
Proof.
  split; [reflexivity|].
  apply (upload_opens_only_local_path w_ok "example-1234567890"
           "ap-singapore" "AKIDexample" "SECRETexample" "exact.bin"
           None "STANDARD" None 8 5 false None None).
  reflexivity.
Defined.

(** The same successful upload of [dist/app.zip]: [main] returns 0 on a
    standard output that has the mark of the completion line, and 1 on one
    that has not. *)
Lemma main_exit_by_upload_outcome_witness :
  fst (main w_ok (cmd "dist/app.zip") initial_state) = Ok 0 /\
  fst (main (narrow_stdout w_ok) (cmd "dist/app.zip") initial_state) = Ok 1.
Proof.
  split.
  - exact (main_exit_by_upload_outcome w_ok (cmd "dist/app.zip")
             (parser_parse_args w_ok (cmd "dist/app.zip")) eq_refl eq_refl).
  - exact (main_exit_by_upload_outcome (narrow_stdout w_ok)
             (cmd "dist/app.zip")
             (parser_parse_args (narrow_stdout w_ok) (cmd "dist/app.zip"))
             eq_refl eq_refl).
Defined.

(** A real run of [dist/app.zip] ends by printing the key [app.zip]; on a
    standard output without the mark it ends with [Upload failed] and
    status 1, after the one transfer call. *)
Lemma main_success_prints_object_key_witness :
  (fst (run_process (main w_ok (cmd "dist/app.zip"))) = 0 /\
   exists before,
     printed (snd (run_process (main w_ok (cmd "dist/app.zip")))) =
       List.app before [complete_line; "Object Key: app.zip"]) /\
  ((length (put_calls
              (snd (run_process (main (narrow_stdout w_ok) (cmd "dist/app.zip")))))
    + length (upload_calls
                (snd (run_process (main (narrow_stdout w_ok) (cmd "dist/app.zip")))))
    = 1)%nat /\
   fst (run_process (main (narrow_stdout w_ok) (cmd "dist/app.zip"))) = 1 /\
   last (printed (snd (run_process (main (narrow_stdout w_ok) (cmd "dist/app.zip")))))
   = Some "Upload failed: codec can't encode characters").
Proof.
  destruct (main_success_prints_object_key w_ok (cmd "dist/app.zip")
              (parser_parse_args w_ok (cmd "dist/app.zip"))
              (good_client None) (2 * 1024 * 1024)
              eq_refl eq_refl eq_refl (fun _ => eq_refl) eq_refl eq_refl
              (fun _ => eq_refl) (fun _ => eq_refl))
    as (_ & Hok & _).
  destruct (main_success_prints_object_key (narrow_stdout w_ok)
              (cmd "dist/app.zip")
              (parser_parse_args (narrow_stdout w_ok) (cmd "dist/app.zip"))
              (good_client None) (2 * 1024 * 1024)
              eq_refl eq_refl eq_refl (fun _ => eq_refl) eq_refl eq_refl
              (fun _ => eq_refl) (fun _ => eq_refl))
    as (Hone & _ & Hnarrow).
  split; [exact (Hok eq_refl)|].
  split; [exact Hone|].
  exact (Hnarrow "codec can't encode characters" eq_refl).
Defined.

(** The file vanished after the [isfile] test: status 2, with a client
    built. *)
Lemma main_late_not_found_exits_2_witness :
  fst (run_process (main w_vanish (cmd "exact.bin"))) = 2 /\
  length (client_configs (snd (run_process (main w_vanish (cmd "exact.bin")))))
  = 1%nat /\
  put_calls (snd (run_process (main w_vanish (cmd "exact.bin")))) = [] /\
  last (printed (snd (run_process (main w_vanish (cmd "exact.bin")))))
  = Some "Error: [Errno 2] No such file or directory: exact.bin".
Proof.
  refine (main_late_not_found_exits_2 w_vanish (cmd "exact.bin")
            (parser_parse_args w_vanish (cmd "exact.bin"))
            (good_client None) (5 * 1024 * 1024)
            "[Errno 2] No such file or directory: exact.bin"
            eq_refl eq_refl eq_refl (fun _ => eq_refl) eq_refl _ eq_refl).
  vm_compute. discriminate.
Defined.

(** The client of a real run is built from the environment. *)
Lemma main_client_config_witness :
  client_configs (snd (run_process (main w_ok (cmd "dist/app.zip"))))
  = [example_config].
Proof.
  destruct (main_client_config w_ok (cmd "dist/app.zip")
              (parser_parse_args w_ok (cmd "dist/app.zip"))
              eq_refl eq_refl eq_refl)
    as (r & i & k & Hr & Hi & Hk & _ & _ & _ & Hcfg).
  rewrite Hcfg. vm_compute in Hr, Hi, Hk.
  inversion Hr. inversion Hi. inversion Hk. reflexivity.
Defined.

(** [--part-size 0 --md5] on a 20 MiB file, no [--threads]. *)
Lemma main_multipart_arguments_witness :
  upload_calls
    (snd (run_process
            (main w_ok (cmd_with "video.mp4" None (Some 0) None true))))
  = [{| uf_Bucket := "example-1234567890";
        uf_LocalFilePath := "video.mp4";
        uf_Key := "video.mp4";
        uf_PartSize := 1;
        uf_MAXThread := 5;
        uf_EnableMD5 := true |}].
Proof.
  assert (Hgt : 5 * 1024 * 1024 < 20 * 1024 * 1024) by (vm_compute; reflexivity).
  destruct (main_multipart_arguments w_ok
              (cmd_with "video.mp4" None (Some 0) None true)
              (parser_parse_args w_ok
                 (cmd_with "video.mp4" None (Some 0) None true))
              (good_client None) (20 * 1024 * 1024)
              eq_refl eq_refl eq_refl (fun _ => eq_refl) eq_refl Hgt)
    as (b & Hb & Hcalls).
  rewrite Hcalls. vm_compute in Hb. inversion Hb. reflexivity.
Defined.

(** The environment of the examples gives the four fields, so the bare
    command line is accepted. *)
Lemma parse_args_accepts_iff_witness :
  parse_args w_ok (cmd "dist/app.zip") initial_state =
    (Ok (parser_parse_args w_ok (cmd "dist/app.zip")), initial_state).
Proof.
  apply (proj2 (parse_args_accepts_iff w_ok (cmd "dist/app.zip")
                  initial_state)).
  intros f. destruct f; eexists;
    (split; [|right; split; reflexivity]); discriminate.
Defined.

(** Only [--bucket] given, empty environment: the three others are named,
    in order. *)
Lemma parse_args_message_exact_witness :
  fst (parse_args w_noenv
         (cmd_with "dist/app.zip" (Some "b") None None false) initial_state)
  = Raise (SystemExit
             "Missing required configuration: --region or COS_REGION, --secret-id or COS_SECRET_ID, --secret-key or COS_SECRET_KEY").
Proof.
  destruct (parse_args w_noenv
              (cmd_with "dist/app.zip" (Some "b") None None false)
              initial_state) as [[args|e] s'] eqn:Hrun.
  - vm_compute in Hrun. discriminate Hrun.
  - destruct (parse_args_message_exact w_noenv
                (cmd_with "dist/app.zip" (Some "b") None None false)
                initial_state s' e Hrun) as [_ ->].
    reflexivity.
Defined.

(** An empty [--bucket] with [COS_BUCKET_NAME] set. *)
Lemma empty_flag_is_missing_witness :
  environ w_ok !! "COS_BUCKET_NAME" = Some "example-1234567890" /\
  exists missing,
    parse_args w_ok
      (cmd_with "dist/app.zip" (Some EmptyString) None None false)
      initial_state =
      (Raise (SystemExit ("Missing required configuration: "
                          ++ join ", " missing)), initial_state) /\
    In "--bucket or COS_BUCKET_NAME" missing.
Proof.
  split; [reflexivity|].
  exact (empty_flag_is_missing w_ok
           (cmd_with "dist/app.zip" (Some EmptyString) None None false)
           ReqBucket initial_state eq_refl).
Defined.

(** Two entries listed: their keys, in order. *)
Lemma listing_returns_keys_in_order_witness :
  fst (Lister.list_cos_objects (w_listing two_entries) "example-1234567890"
         "ap-singapore" "AKIDexample" "SECRETexample" EmptyString
         initial_state)
  = Ok (Some ["index.html"; "img/logo.png"]) /\
  length ["index.html"; "img/logo.png"] = length two_entries.
Proof.
  refine (listing_returns_keys_in_order (w_listing two_entries)
            "example-1234567890" "ap-singapore" "AKIDexample" "SECRETexample"
            EmptyString (good_client (Some two_entries))
            {| Contents := Some two_entries |} two_entries
            ["index.html"; "img/logo.png"] initial_state
            eq_refl eq_refl eq_refl _).
  repeat constructor.
Defined.

(** The second of three entries lacks its key: [None], and the key of the
    first entry is not returned. *)
Lemma listing_entry_without_key_witness :
  fst (Lister.list_cos_objects
         (w_listing [entry "a" "1"; entry_without_key; entry "b" "2"])
         "example-1234567890" "ap-singapore" "AKIDexample" "SECRETexample"
         EmptyString initial_state)
  = Ok None.
Proof.
  assert (Hex : Exists (fun obj : gmap string string => obj !! "Key" = None)
                  [entry "a" "1"; entry_without_key; entry "b" "2"]).
  { apply Exists_cons_tl, Exists_cons_hd. reflexivity. }
  rewrite (listing_entry_without_key
             (w_listing [entry "a" "1"; entry_without_key; entry "b" "2"])
             "example-1234567890" "ap-singapore" "AKIDexample" "SECRETexample"
             EmptyString
             (good_client (Some [entry "a" "1"; entry_without_key; entry "b" "2"]))
             {| Contents := Some [entry "a" "1"; entry_without_key; entry "b" "2"] |}
             [entry "a" "1"; entry_without_key; entry "b" "2"]
             eq_refl eq_refl eq_refl Hex).
  reflexivity.
Defined.

(** No client can be built: the listing prints the error and returns
    [None]. *)
Lemma listing_catches_exceptions_witness :
  Lister.list_cos_objects w_noclient "example-1234567890" "ap-singapore"
    "AKIDexample" "SECRETexample" EmptyString initial_state =
    (Ok None,
     {| trace := [EvCreateClient example_config;
                  EvPrint "Error listing COS objects: invalid credentials"];
        handles := [] |}).
Proof.
  destruct (listing_catches_exceptions w_noclient "example-1234567890"
              "ap-singapore" "AKIDexample" "SECRETexample" EmptyString)
    as (_ & Hclient & _).
  exact (Hclient (Exception "invalid credentials") eq_refl eq_refl).
Defined.

(** The lister when no client can be built: status 1, with the failure
    line on a standard output that has the cross, and without it on one
    that has not. *)
Lemma lister_failure_exits_1_witness :
  (fst (run_process (Lister.main "id" "key" w_noclient)) = 1 /\
   exists before,
     printed (snd (run_process (Lister.main "id" "key" w_noclient))) =
       List.app before
         ["Error listing COS objects: invalid credentials";
          Lister.failed_line]) /\
  (fst (run_process (Lister.main "id" "key" (narrow_stdout w_noclient))) = 1 /\
   last (printed (snd (run_process
                         (Lister.main "id" "key" (narrow_stdout w_noclient)))))
   = Some "Error listing COS objects: invalid credentials").
Proof.
  destruct (lister_failure_exits_1 w_noclient "id" "key"
              (Exception "invalid credentials") eq_refl (or_introl eq_refl))
    as (Hcode & Hshown & _).
  destruct (lister_failure_exits_1 (narrow_stdout w_noclient) "id" "key"
              (Exception "invalid credentials") eq_refl (or_introl eq_refl))
    as (Hcode' & _ & Hhidden).
  split; [split; [exact Hcode | exact (Hshown eq_refl)]|].
  split; [exact Hcode'|].
  apply Hhidden. discriminate.
Defined.

(** Twelve objects listed: ten are shown, and two are counted as left
    out; on a standard output without the check mark only the header is
    printed and the status is 1. *)
Lemma lister_display_truncated_witness :
  (fst (run_process (Lister.main "id" "key" (w_listing twelve_entries))) = 0 /\
   List.skipn 8
     (printed (snd (run_process
                      (Lister.main "id" "key" (w_listing twelve_entries)))))
   = [check_mark ++ " Configuration is correct! Found 12 object(s):";
      "  - a"; "  - b"; "  - c"; "  - d"; "  - e";
      "  - f"; "  - g"; "  - h"; "  - i"; "  - j";
      "  ... and 2 more objects";
      EmptyString;
      check_mark ++ " SUCCESS: Tencent COS configuration is working correctly!"]) /\
  (fst (run_process
          (Lister.main "id" "key" (narrow_stdout (w_listing twelve_entries))))
   = 1 /\
   length (printed (snd (run_process
                           (Lister.main "id" "key"
                              (narrow_stdout (w_listing twelve_entries))))))
   = 8%nat).
Proof.
  assert (Hne : ["a"; "b"; "c"; "d"; "e"; "f"; "g"; "h"; "i"; "j"; "k"; "l"]
                <> @nil string) by discriminate.
  destruct (lister_display_truncated (w_listing twelve_entries) "id" "key"
              ["a"; "b"; "c"; "d"; "e"; "f"; "g"; "h"; "i"; "j"; "k"; "l"]
              eq_refl Hne) as [Hshown _].
  destruct (lister_display_truncated (narrow_stdout (w_listing twelve_entries))
              "id" "key"
              ["a"; "b"; "c"; "d"; "e"; "f"; "g"; "h"; "i"; "j"; "k"; "l"]
              eq_refl Hne) as [_ Hhidden].
  split.
  - destruct (Hshown eq_refl eq_refl) as [Hcode Hprinted].
    split; [exact Hcode|]. rewrite Hprinted. reflexivity.
  - assert (Hmark : stdout_encode_error
                      (narrow_stdout (w_listing twelve_entries))
                      (Lister.found_line
                         ["a"; "b"; "c"; "d"; "e"; "f"; "g"; "h"; "i"; "j"; "k"; "l"])
                    <> None) by discriminate.
    destruct (Hhidden Hmark) as [Hcode Hprinted].
    split; [exact Hcode|]. rewrite Hprinted. reflexivity.
Defined.

(** Two objects listed: status 0 with the check mark, 1 without. *)
Lemma lister_exit_by_listing_witness :
  fst (run_process (Lister.main "id" "key" (w_listing two_entries))) = 0 /\
  fst (run_process (Lister.main "id" "key"
                      (narrow_stdout (w_listing two_entries)))) = 1.
Proof.
  destruct (lister_exit_by_listing (w_listing two_entries) "id" "key")
    as [Hshown _].
  destruct (lister_exit_by_listing (narrow_stdout (w_listing two_entries))
              "id" "key") as [Hhidden _].
  split.
  - exact (Hshown ["index.html"; "img/logo.png"] eq_refl).
  - exact (Hhidden ["index.html"; "img/logo.png"] eq_refl).
Defined.

End MoreWitnesses.
